(** * Warranty-tier injectors of the configurator

    A shallow embedding of [update_capabilities.py] and [update_rules.py]:
    the two scripts that rewrite the JSON documents of the configurator,
    and the properties of one run and of repeated runs.

    The scripts are dynamically typed: a document is whatever [json.load]
    returns, and every subscript, iteration, dictionary lookup and method
    call can raise.  The embedding keeps that: values are Python values,
    operations return a result or the exception they raise, and a run
    threads the file system through a state-and-exception monad. *)

From Stdlib Require Import ZArith SpecFloat.
From stdpp Require Import gmap strings list.

Local Open Scope string_scope.
Local Open Scope list_scope.
Set Warnings "-register-all".

(** ** Python values and the operations the scripts apply to them *)

Module Py.

(** What [json.load] builds: [None], [bool], [int], [float], [str],
    [list], and [dict] with [str] keys.  A [dict] keeps insertion order,
    which [json.dump] follows, so it is an association list. *)
Inductive value : Type :=
| VNone
| VBool (b : bool)
| VInt (n : Z)
| VFloat (f : spec_float)
| VStr (s : string)
| VList (l : list value)
| VDict (d : list (string * value)).

(** The exceptions the two scripts can meet.  [OSError] stands for
    what a failing [open], [write] or [close] raises other than
    [FileNotFoundError]; [UnicodeDecodeError], [ValueError] and
    [RecursionError] are what [json.load] raises, besides
    [JSONDecodeError], on some files it does not decode. *)
Inductive exn : Type :=
| FileNotFoundError (path : string)
| JSONDecodeError
| KeyError (key : string)
| TypeError
| AttributeError
| OSError
| UnicodeDecodeError
| ValueError
| RecursionError.

Inductive result (A : Type) : Type :=
| Ok (a : A)
| Raise (e : exn).
Arguments Ok {A} a.
Arguments Raise {A} e.

#[global] Instance result_ret : MRet result := fun A a => Ok a.
#[global] Instance result_bind : MBind result := fun A B f m =>
  match m with
  | Ok a => f a
  | Raise e => Raise e
  end.

(** [[x for x in l if p x]], where the test itself may raise: the first
    exception, in list order, ends the comprehension. *)
Fixpoint list_comp {A} (p : A -> result bool) (l : list A) : result (list A) :=
  match l with
  | [] => Ok []
  | x :: l' =>
      b ← p x;
      r ← list_comp p l';
      Ok (if b : bool then x :: r else r)
  end.

(** [for x in l: acc = step acc x]. *)
Fixpoint for_each {A S} (step : S -> A -> result S) (acc : S) (l : list A)
  : result S :=
  match l with
  | [] => Ok acc
  | x :: l' => acc' ← step acc x; for_each step acc' l'
  end.

(** *** Dictionaries with string keys (JSON objects) *)

Fixpoint dict_get (k : string) (d : list (string * value)) : option value :=
  match d with
  | [] => None
  | (k', v) :: d' => if String.eqb k k' then Some v else dict_get k d'
  end.

(** [d[k] = v]: an existing key keeps its place, a new key goes last. *)
Fixpoint dict_set (k : string) (v : value) (d : list (string * value))
  : list (string * value) :=
  match d with
  | [] => [(k, v)]
  | (k', v') :: d' =>
      if String.eqb k k' then (k', v) :: d' else (k', v') :: dict_set k v d'
  end.

(** [obj[k]] for a string [k]: only a [dict] can be subscripted by a
    string; a missing key is a [KeyError]. *)
Definition getitem (obj : value) (k : string) : result value :=
  match obj with
  | VDict d =>
      match dict_get k d with
      | Some v => Ok v
      | None => Raise (KeyError k)
      end
  | _ => Raise TypeError
  end.

(** [obj[k] = v] for a string [k]. *)
Definition setitem (obj : value) (k : string) (v : value) : result value :=
  match obj with
  | VDict d => Ok (VDict (dict_set k v d))
  | _ => Raise TypeError
  end.

(** [lst.extend(more)]. *)
Definition extend (lst : value) (more : list value) : result value :=
  match lst with
  | VList l => Ok (VList (l ++ more))
  | _ => Raise AttributeError
  end.

Fixpoint chars (s : string) : list value :=
  match s with
  | EmptyString => []
  | String c s' => VStr (String c EmptyString) :: chars s'
  end.

(** [iter(obj)]: the items of a list, the characters of a string, the
    keys of a dict; nothing else the decoder builds is iterable. *)
Definition py_iter (obj : value) : result (list value) :=
  match obj with
  | VList l => Ok l
  | VStr s => Ok (chars s)
  | VDict d => Ok (map (fun kv => VStr (fst kv)) d)
  | _ => Raise TypeError
  end.

(** [v in strs] for a list of string literals: only a string equals a
    string. *)
Definition in_strs (v : value) (strs : list string) : bool :=
  match v with
  | VStr s => existsb (String.eqb s) strs
  | _ => false
  end.

(** [v.startswith(p)]: only [str] has the method. *)
Definition startswith (v : value) (p : string) : result bool :=
  match v with
  | VStr s => Ok (String.prefix p s)
  | _ => Raise AttributeError
  end.

(** *** Dictionaries keyed by arbitrary hashable values

    [models] is keyed by whatever [model_id] holds.  Python compares keys
    by hash and [==]: [True], [1] and [1.0] are one key, [0.5] and [0.50]
    are one key, a string is only equal to itself, and lists and dicts
    cannot be keys at all.  A key is therefore compared through its
    normal form.  The decoder returns one and the same object for every
    [NaN] it reads, so as a key [NaN] is found again. *)
Inductive hkey : Type :=
| KNone
| KStr (s : string)
| KInt (n : Z)
| KFrac (neg : bool) (m : positive) (e : Z)
| KInf (neg : bool)
| KNan.

#[global] Instance hkey_eq_dec : EqDecision hkey.
Proof. solve_decision. Defined.

(** Strip the factors of two of a mantissa into the exponent. *)
Fixpoint odd_part (m : positive) (e : Z) : positive * Z :=
  match m with
  | xO m' => odd_part m' (e + 1)
  | _ => (m, e)
  end.

Definition float_key (f : spec_float) : hkey :=
  match f with
  | S754_zero _ => KInt 0
  | S754_infinity s => KInf s
  | S754_nan => KNan
  | S754_finite s m e =>
      let '(m', e') := odd_part m e in
      if (0 <=? e')%Z
      then KInt ((if s then -1 else 1) * (Z.pos m' * 2 ^ e'))
      else KFrac s m' e'
  end.

(** [hash(v)], as far as key identity goes. *)
Definition hash_key (v : value) : result hkey :=
  match v with
  | VNone => Ok KNone
  | VBool b => Ok (KInt (if b then 1 else 0))
  | VInt n => Ok (KInt n)
  | VFloat f => Ok (float_key f)
  | VStr s => Ok (KStr s)
  | VList _ | VDict _ => Raise TypeError
  end.

(** A dict with hashable keys, in insertion order; each entry keeps the
    key object that was inserted first. *)
Definition hdict : Type := list (hkey * (value * value)).

Definition hdict_mem (h : hkey) (d : hdict) : bool :=
  existsb (fun e => bool_decide (fst e = h)) d.

(** [k in d]. *)
Definition contains (d : hdict) (k : value) : result bool :=
  h ← hash_key k; Ok (hdict_mem h d).

(** An existing key keeps its place and its key object and takes the new
    value; a new key goes last. *)
Fixpoint hdict_put (h : hkey) (k v : value) (d : hdict) : hdict :=
  match d with
  | [] => [(h, (k, v))]
  | (h', (k', v')) :: d' =>
      if bool_decide (h' = h) then (h', (k', v)) :: d'
      else (h', (k', v')) :: hdict_put h k v d'
  end.

(** [d[k] = v]. *)
Definition hdict_set (d : hdict) (k v : value) : result hdict :=
  h ← hash_key k; Ok (hdict_put h k v d).

(** [d.items()]. *)
Definition items (d : hdict) : list (value * value) := map snd d.

End Py.

(** ** Files

    A file either decodes as JSON or it does not.  A file that decodes
    is identified with the value [json.load] returns for it, and
    [json.dump] of a value leaves a file that decodes to that value; the
    text itself (indentation, spacing) is not modelled.

    The operations of this module are those of a machine on which input
    and output do not fail: a path that exists can be read, a file that
    does not decode is text that is not JSON, and any path can be opened
    for writing and written to the end.  [Io] below has the same
    operations on a machine where they can fail. *)

Module Files.
Import Py.

Inductive file : Type :=
| Malformed (text : string)
| Json (doc : value).

(** The part of the machine the scripts touch: the files by path, and
    the lines printed so far. *)
Record world : Type := World {
  files : gmap string file;
  stdout : list string
}.

(** A command runs in a world and ends with a result or an exception,
    in the world it has reached by then. *)
Definition M (A : Type) : Type := world -> result A * world.

Definition ret {A} (a : A) : M A := fun w => (Ok a, w).

Definition bind {A B} (m : M A) (k : A -> M B) : M B := fun w =>
  match m w with
  | (Ok a, w') => k a w'
  | (Raise e, w') => (Raise e, w')
  end.

(** A computation on values that touches no file. *)
Definition lift {A} (r : result A) : M A := fun w => (r, w).

Notation "x <- m ;; k" := (bind m (fun x => k))
  (at level 100, m at next level, right associativity).
Notation "m ;; k" := (bind m (fun _ => k))
  (at level 100, right associativity).

(** [with open(path, 'r') as f: data = json.load(f)]. *)
Definition json_load (path : string) : M value := fun w =>
  match files w !! path with
  | None => (Raise (FileNotFoundError path), w)
  | Some (Malformed _) => (Raise JSONDecodeError, w)
  | Some (Json doc) => (Ok doc, w)
  end.

(** [open(path, 'w')]: the file is created or emptied. *)
Definition open_w (path : string) : M unit := fun w =>
  (Ok tt, World (<[path := Malformed ""]> (files w)) (stdout w)).

(** [json.dump(data, f)] on the file just opened.  Every [value] is
    serialisable (dict keys are strings), so the encoder does not raise;
    here the device does not either. *)
Definition json_dump (path : string) (data : value) : M unit := fun w =>
  (Ok tt, World (<[path := Json data]> (files w)) (stdout w)).

Definition print (line : string) : M unit := fun w =>
  (Ok tt, World (files w) (stdout w ++ [line])).

End Files.

(** ** update_capabilities.py *)

Module UpdateCapabilities.
Import Py Files.

Definition warranty_ids : list string :=
  ["fap_warranty_tier"; "fap_warranty_years"; "fap_standard"; "fap_gold";
   "fap_platinum"].

(** The test of the clean-up comprehension:
    [c['option_id'] not in [...]]. *)
Definition keep_cap (c : value) : result bool :=
  o ← getitem c "option_id"; Ok (negb (in_strs o warranty_ids)).

(** The body of the loop that collects the models:
    [if cap['model_id'] not in models:
         models[cap['model_id']] = cap['model_label']]. *)
Definition models_step (models : hdict) (cap : value) : result hdict :=
  mid ← getitem cap "model_id";
  seen ← contains models mid;
  if seen : bool then Ok models
  else
    lbl ← getitem cap "model_label";
    mid' ← getitem cap "model_id";
    hdict_set models mid' lbl.

Definition cap_record (model_id model_label : value) (option_id raw : string)
  (allowed : list value) : value :=
  VDict [("model_id", model_id); ("model_label", model_label);
         ("option_id", VStr option_id); ("raw", VStr raw);
         ("allowed_values", VList allowed)].

(** The four [new_caps.append] of one iteration over [models.items()]. *)
Definition caps_for (m : value * value) : list value :=
  let '(model_id, model_label) := m in
  [ cap_record model_id model_label "fap_standard" "yes, no"
      [VBool true; VBool false];
    cap_record model_id model_label "fap_gold" "no, yes"
      [VBool false; VBool true];
    cap_record model_id model_label "fap_platinum" "no, yes"
      [VBool false; VBool true];
    cap_record model_id model_label "fap_warranty_years" "1, 2, 3, 4, 5"
      [VInt 1; VInt 2; VInt 3; VInt 4; VInt 5] ].

Definition new_caps (models : hdict) : list value :=
  flat_map caps_for (items models).

(** Everything between the read and the write, on the value in memory. *)
Definition rewrite (data : value) : result value :=
  caps ← getitem data "capabilities";
  cs ← py_iter caps;
  kept ← list_comp keep_cap cs;
  data ← setitem data "capabilities" (VList kept);
  caps ← getitem data "capabilities";
  cs ← py_iter caps;
  models ← for_each models_step [] cs;
  caps ← getitem data "capabilities";
  caps ← extend caps (new_caps models);
  setitem data "capabilities" caps.

Definition update_capabilities (filepath : string) : M unit :=
  data <- json_load filepath ;;
  data <- lift (rewrite data) ;;
  open_w filepath ;;
  json_dump filepath data.

Definition capabilities_json : string :=
  "/home/mixy/configurator/src/logic/capabilities.json".
Definition blue_label_capabilities_json : string :=
  "/home/mixy/configurator/src/logic/blue_label_capabilities.json".

(** The script: the two calls and the confirmation. *)
Definition main : M unit :=
  update_capabilities capabilities_json ;;
  update_capabilities blue_label_capabilities_json ;;
  print "Capabilities updated successfully with separate boolean tiers.".

End UpdateCapabilities.

(** ** update_rules.py *)

Module UpdateRules.
Import Py Files.

(** The test of the clean-up comprehension:
    [not r['rule_id'].startswith('fap_')]. *)
Definition keep_rule (r : value) : result bool :=
  rid ← getitem r "rule_id";
  b ← startswith rid "fap_";
  Ok (negb b).

Definition rule (rule_id when_option effect_option : string) : value :=
  VDict [("rule_id", VStr rule_id);
         ("when", VDict [("option_id", VStr when_option);
                         ("value", VBool true)]);
         ("effect", VDict [("type", VStr "exclude");
                           ("option_id", VStr effect_option);
                           ("value", VBool true)]);
         ("reason", VStr "Only one FAP tier allowed.")].

Definition fap_rules : list value :=
  [ rule "fap_gold_excludes_standard" "fap_gold" "fap_standard";
    rule "fap_gold_excludes_platinum" "fap_gold" "fap_platinum";
    rule "fap_platinum_excludes_standard" "fap_platinum" "fap_standard";
    rule "fap_platinum_excludes_gold" "fap_platinum" "fap_gold";
    rule "fap_standard_excludes_gold" "fap_standard" "fap_gold";
    rule "fap_standard_excludes_platinum" "fap_standard" "fap_platinum" ].

Definition rewrite (data : value) : result value :=
  rules ← getitem data "rules";
  rs ← py_iter rules;
  kept ← list_comp keep_rule rs;
  data ← setitem data "rules" (VList kept);
  rules ← getitem data "rules";
  rules ← extend rules fap_rules;
  setitem data "rules" rules.

Definition add_fap_rules (filepath : string) : M unit :=
  data <- json_load filepath ;;
  data <- lift (rewrite data) ;;
  open_w filepath ;;
  json_dump filepath data.

Definition rules_json : string :=
  "/home/mixy/configurator/src/logic/rules.json".

Definition main : M unit :=
  add_fap_rules rules_json ;;
  print "Rules updated successfully.".

End UpdateRules.

(** ** The same runs on a machine where input and output can fail

    [open] can be refused, [json.load] raises one of several exceptions
    on a file it does not decode, and the write is two steps that can
    each fail: [open(path, 'w')] empties the file, then [json.dump]
    streams the text into it and the [with] block closes it. *)

Module Io.
Import Py Files.

(** What the machine does to the operations of a run.
    - [unreadable p]: [open(p, 'r')] or the read raises [OSError] though
      the path exists.
    - [decode_error t]: the exception [json.load] raises on the text
      [t] of a file that does not decode.
    - [open_fails p]: [open(p, 'w')] raises [OSError]; the file is not
      touched.
    - [dump_fails p data]: writing [data] to [p] raises the given
      exception ([OSError] from the device) after the file was emptied,
      and leaves the given content behind (the part of the text that
      reached the file). *)
Record env : Type := Env {
  unreadable : string -> bool;
  decode_error : string -> exn;
  open_fails : string -> bool;
  dump_fails : string -> value -> option (exn * file)
}.

(** The machine of [Files]: nothing fails, undecodable text is not
    JSON. *)
Definition quiet : env :=
  Env (fun _ => false) (fun _ => JSONDecodeError) (fun _ => false)
      (fun _ _ => None).

(** [with open(path, 'r') as f: data = json.load(f)]. *)
Definition json_load (E : env) (path : string) : M value := fun w =>
  match files w !! path with
  | None => (Raise (FileNotFoundError path), w)
  | Some f =>
      if unreadable E path then (Raise OSError, w)
      else match f with
           | Malformed text => (Raise (decode_error E text), w)
           | Json doc => (Ok doc, w)
           end
  end.

(** [open(path, 'w')]: refused, or the file is created or emptied. *)
Definition open_w (E : env) (path : string) : M unit := fun w =>
  if open_fails E path then (Raise OSError, w)
  else (Ok tt, World (<[path := Malformed ""]> (files w)) (stdout w)).

(** [json.dump(data, f)] and the closing of the file just opened: it
    fails on the way, or the file holds the document. *)
Definition json_dump (E : env) (path : string) (data : value) : M unit :=
  fun w =>
  match dump_fails E path data with
  | Some (e, rest) =>
      (Raise e, World (<[path := rest]> (files w)) (stdout w))
  | None => (Ok tt, World (<[path := Json data]> (files w)) (stdout w))
  end.

Definition update_capabilities (E : env) (filepath : string) : M unit :=
  data <- json_load E filepath ;;
  data <- lift (UpdateCapabilities.rewrite data) ;;
  open_w E filepath ;;
  json_dump E filepath data.

Definition add_fap_rules (E : env) (filepath : string) : M unit :=
  data <- json_load E filepath ;;
  data <- lift (UpdateRules.rewrite data) ;;
  open_w E filepath ;;
  json_dump E filepath data.

Definition capabilities_main (E : env) : M unit :=
  update_capabilities E UpdateCapabilities.capabilities_json ;;
  update_capabilities E UpdateCapabilities.blue_label_capabilities_json ;;
  print "Capabilities updated successfully with separate boolean tiers.".

Definition rules_main (E : env) : M unit :=
  add_fap_rules E UpdateRules.rules_json ;;
  print "Rules updated successfully.".

End Io.

(** ** What can be read off a document *)

Module Observe.
Import Py Files.

(** How many items of [l] pass the test [p]. *)
Definition count {A} (p : A -> bool) (l : list A) : nat :=
  length (List.filter p l).

(** The document a file decodes to, if it does. *)
Definition doc_at (path : string) (w : world) : option value :=
  match files w !! path with
  | Some (Json doc) => Some doc
  | _ => None
  end.

(** The items of the top-level array [key], as a loop over it sees them
    (nothing when the document has no such array). *)
Definition array_of (key : string) (data : value) : list value :=
  match getitem data key ≫= py_iter with
  | Ok items => items
  | Raise _ => []
  end.

Definition array_at (key path : string) (w : world) : list value :=
  match doc_at path w with
  | Some doc => array_of key doc
  | None => []
  end.

(** A string field of a record. *)
Definition field_is (key s : string) (r : value) : bool :=
  match getitem r key with
  | Ok (VStr s') => String.eqb s' s
  | _ => false
  end.

End Observe.

Module CapabilityFacts.
Import Py Files Observe UpdateCapabilities.

Definition option_id_is (o : string) (c : value) : bool :=
  field_is "option_id" o c.

(** The capability belongs to the warranty namespace: its [option_id] is
    one of the five identifiers of the clean-up. *)
Definition is_warranty (c : value) : bool :=
  match getitem c "option_id" with
  | Ok o => in_strs o warranty_ids
  | Raise _ => false
  end.

(** The capabilities outside the warranty namespace, in order. *)
Definition unrelated (cs : list value) : list value :=
  List.filter (fun c => negb (is_warranty c)) cs.

(** The four option ids the injector writes. *)
Definition tier_ids : list string :=
  ["fap_standard"; "fap_gold"; "fap_platinum"; "fap_warranty_years"].

(** The model of a capability, as the key [models] files it under. *)
Definition model_key (c : value) : option hkey :=
  match getitem c "model_id" ≫= hash_key with
  | Ok h => Some h
  | Raise _ => None
  end.

Definition of_model (h : hkey) (c : value) : bool :=
  bool_decide (model_key c = Some h).

(** The first capability of [cs] that carries the model [h]. *)
Definition first_of_model (h : hkey) (cs : list value) : option value :=
  List.find (of_model h) cs.

(** An entry of [models] comes from the first capability of [cs] that
    carries its model: key object and label are that capability's. *)
Definition filed_from (cs : list value) (e : hkey * (value * value)) : Prop :=
  exists c, first_of_model e.1 cs = Some c /\
            (hash_key e.2.1 = Ok e.1 /\
             getitem c "model_id" = Ok e.2.1 /\
             getitem c "model_label" = Ok e.2.2).

(** Exactly four records of [rs] are of model [h], one for each of the
    four option ids. *)
Definition four_records (h : hkey) (rs : list value) : Prop :=
  count (of_model h) rs = 4 /\
  forall o, o ∈ tier_ids ->
    count (fun r => of_model h r && option_id_is o r) rs = 1.

(** If [r] is a record of option [o], its allowed values are [vs]. *)
Definition allowed_values_are (o : string) (vs : list value) (r : value)
  : Prop :=
  option_id_is o r = true -> getitem r "allowed_values" = Ok (VList vs).

Definition capabilities_at : string -> world -> list value :=
  array_at "capabilities".

(** The records a run has added: what follows the preserved entries in
    the array after the run. *)
Definition appended (path : string) (w w' : world) : list value :=
  drop (length (unrelated (capabilities_at path w))) (capabilities_at path w').

End CapabilityFacts.

Module RuleFacts.
Import Py Files Observe UpdateRules.

(** The rule belongs to the reserved namespace: its [rule_id] starts
    with [fap_]. *)
Definition is_fap (r : value) : bool :=
  match getitem r "rule_id" with
  | Ok (VStr s) => String.prefix "fap_" s
  | _ => false
  end.

Definition unrelated (rs : list value) : list value :=
  List.filter (fun r => negb (is_fap r)) rs.

Definition tiers : list string := ["fap_standard"; "fap_gold"; "fap_platinum"].

Definition value_is_true (r : value) : bool :=
  match getitem r "value" with
  | Ok (VBool true) => true
  | _ => false
  end.

(** [when] is option [a] with value true. *)
Definition when_selects (a : string) (r : value) : bool :=
  match getitem r "when" with
  | Ok w => field_is "option_id" a w && value_is_true w
  | Raise _ => false
  end.

(** [effect] excludes option [b] with value true. *)
Definition effect_excludes (b : string) (r : value) : bool :=
  match getitem r "effect" with
  | Ok e => field_is "type" "exclude" e && field_is "option_id" b e
            && value_is_true e
  | Raise _ => false
  end.

Definition excludes (a b : string) (r : value) : bool :=
  is_fap r && when_selects a r && effect_excludes b r.

Definition rules_at : string -> world -> list value := array_at "rules".

End RuleFacts.

(** ** Outcomes of a run *)

Module Outcome.
Import Py Files Observe.

(** The run ends normally, and the file holds the rewritten document. *)
Definition completes (run : string -> M unit) (rewrite : value -> result value)
  (p : string) (w : world) : Prop :=
  exists data out,
    files w !! p = Some (Json data) /\ rewrite data = Ok out /\
    run p w = (Ok tt, World (<[p := Json out]> (files w)) (stdout w)).

(** The run ends with the exception [e], in the world it started in:
    nothing was written or printed. *)
Definition aborts (run : string -> M unit) (p : string) (w : world) (e : exn)
  : Prop :=
  run p w = (Raise e, w).

(** The exception is one of a read, of the decoding, or of a missing
    array [key]: the file is missing or cannot be read, the file does
    not decode, or the document has no such key. *)
Definition read_parse_or_missing_array (E : Io.env) (key p : string)
  (w : world) (e : exn) : Prop :=
  e = FileNotFoundError p \/ e = OSError \/
  (exists t, files w !! p = Some (Malformed t) /\ e = Io.decode_error E t) \/
  e = KeyError key.

(** The run got as far as the write, and the write failed: the document
    was read and rewritten in memory, the file was opened and emptied,
    and the run ends with the exception of the write, with the file
    holding what the failed write left. *)
Definition write_fails (E : Io.env) (run : string -> M unit)
  (rewrite : value -> result value) (p : string) (w : world) : Prop :=
  exists data out e rest,
    files w !! p = Some (Json data) /\ rewrite data = Ok out /\
    Io.dump_fails E p out = Some (e, rest) /\
    run p w = (Raise e, World (<[p := rest]> (files w)) (stdout w)).

(** The three failures the documentation names abort the run, each with
    its own exception, before anything is written. *)
Definition named_failures_abort (E : Io.env) (run : string -> M unit)
  (key p : string) (w : world) : Prop :=
  (files w !! p = None -> aborts run p w (FileNotFoundError p)) /\
  (forall t, files w !! p = Some (Malformed t) -> Io.unreadable E p = false ->
             aborts run p w (Io.decode_error E t)) /\
  (forall d, files w !! p = Some (Json (VDict d)) ->
             Io.unreadable E p = false -> dict_get key d = None ->
             aborts run p w (KeyError key)).

(** One run: it completes, or it aborts with nothing written, or its
    write fails. *)
Definition atomic_until_write (E : Io.env) (run : string -> M unit)
  (rewrite : value -> result value) (p : string) (w : world) : Prop :=
  completes run rewrite p w \/ (exists e, aborts run p w e) \/
  write_fails E run rewrite p w.

(** Of the items of [before], [after] keeps those outside the namespace,
    as they are and in their order, and adds items of the namespace
    behind them. *)
Definition preserves (in_namespace : value -> bool)
  (before after : list value) : Prop :=
  exists added,
    after = List.filter (fun x => negb (in_namespace x)) before ++ added /\
    Forall (fun x => in_namespace x = true) added.

(** The keys of the document other than [key] hold what they held. *)
Definition same_elsewhere (key : string) (data out : value) : Prop :=
  forall k, k <> key -> getitem out k = getitem data k.

End Outcome.

(** ** The claims that fail as they are worded *)

Module Stated.
Import Py Files Observe Outcome.

(** The capability injector writes four records for every model met
    anywhere in the array it reads. *)
Definition four_records_per_input_model : Prop :=
  forall p w w', UpdateCapabilities.update_capabilities p w = (Ok tt, w') ->
  forall c h, c ∈ CapabilityFacts.capabilities_at p w ->
    CapabilityFacts.model_key c = Some h ->
    CapabilityFacts.four_records h (CapabilityFacts.appended p w w').

(** A run completes, or it aborts with the file as it was, on a read,
    decoding or missing-array error. *)
Definition atomic_on_named_failures : Prop :=
  forall E p w,
    (completes (Io.update_capabilities E) UpdateCapabilities.rewrite p w \/
     exists e, aborts (Io.update_capabilities E) p w e /\
               read_parse_or_missing_array E "capabilities" p w e) /\
    (completes (Io.add_fap_rules E) UpdateRules.rewrite p w \/
     exists e, aborts (Io.add_fap_rules E) p w e /\
               read_parse_or_missing_array E "rules" p w e).

(** The same without a word on the exception: a run completes, or it
    aborts with the file as it was. *)
Definition atomic_whatever_the_exception : Prop :=
  forall E p w,
    (completes (Io.update_capabilities E) UpdateCapabilities.rewrite p w \/
     exists e, aborts (Io.update_capabilities E) p w e) /\
    (completes (Io.add_fap_rules E) UpdateRules.rewrite p w \/
     exists e, aborts (Io.add_fap_rules E) p w e).

End Stated.

(** ** Sample documents *)

Module Samples.
Import Py Files Observe.

Definition capability (model_id model_label option_id raw : string)
  (allowed : list value) : value :=
  VDict [("model_id", VStr model_id); ("model_label", VStr model_label);
         ("option_id", VStr option_id); ("raw", VStr raw);
         ("allowed_values", VList allowed)].

(** Two models; the superseded option is still there for [m1], and a
    later entry of [m1] spells its label differently. *)
Definition catalogue : value :=
  VDict [("version", VInt 3);
         ("capabilities", VList [
            capability "m1" "Model One" "color" "red, blue"
              [VStr "red"; VStr "blue"];
            capability "m1" "Model One" "fap_warranty_tier" "standard, gold"
              [VStr "standard"; VStr "gold"];
            capability "m2" "Model Two" "engine" "v6, v8"
              [VStr "v6"; VStr "v8"];
            capability "m1" "Model 1 (2024)" "trim" "base, sport"
              [VStr "base"; VStr "sport"] ])].

(** A model whose only capability is one of the warranty options. *)
Definition only_warranty : value :=
  VDict [("capabilities", VList [
            capability "m1" "Model One" "fap_gold" "no, yes"
              [VBool false; VBool true] ])].

(** A capability without [option_id]. *)
Definition no_option_id : value :=
  VDict [("capabilities", VList [
            VDict [("model_id", VStr "m1");
                   ("model_label", VStr "Model One")] ])].

(** One rule of the catalogue's own, and one left by an earlier run. *)
Definition rulebook : value :=
  VDict [("rules", VList [
            VDict [("rule_id", VStr "sport_needs_v8");
                   ("when", VDict [("option_id", VStr "trim");
                                   ("value", VStr "sport")]);
                   ("effect", VDict [("type", VStr "require");
                                     ("option_id", VStr "engine");
                                     ("value", VStr "v8")]);
                   ("reason", VStr "Sport trim needs the V8.")];
            UpdateRules.rule "fap_gold_excludes_standard" "fap_gold"
              "fap_standard" ]);
         ("schema", VStr "1.0")].

Definition path : string := "/srv/logic/doc.json".

(** A disk with the document at [path] and a text file beside it. *)
Definition disk (doc : value) : world :=
  World (<[path := Json doc]> {["/srv/logic/README" := Malformed "notes"]}) [].

End Samples.


(** ** Which documents a run accepts, and what it writes for them *)

Module Acceptance.
Import Py Files Observe.

(** [r[k]] can be read: [r] is a dict that has the key. *)
Definition has_key (k : string) (r : value) : Prop :=
  exists v, getitem r k = Ok v.

Definition is_dict (r : value) : Prop := exists d, r = VDict d.




(** The only values other than a list that iterate to nothing. *)
Definition empty_iterable (v : value) : bool :=
  match v with
  | VStr "" | VDict [] => true
  | _ => false
  end.

(** The keys of a document, in the order [json.dump] writes them. *)
Definition keys_of (data : value) : list string :=
  match data with
  | VDict d => map fst d
  | _ => []
  end.

(** The keys of [ks] in the order of their first occurrence, leaving
    out those already in [seen]. *)
Fixpoint first_occurrences (seen ks : list hkey) : list hkey :=
  match ks with
  | [] => []
  | k :: ks' =>
      if bool_decide (k ∈ seen) then first_occurrences seen ks'
      else k :: first_occurrences (seen ++ [k]) ks'
  end.

(** The models of the capabilities [cs], each once, in the order in
    which they are first met. *)
Definition distinct_models (cs : list value) : list hkey :=
  first_occurrences [] (omap CapabilityFacts.model_key cs).

(** Model and option of a record. *)
Definition model_and_option (r : value) : option hkey * result value :=
  (CapabilityFacts.model_key r, getitem r "option_id").



End Acceptance.

Module MoreSamples.
Import Py Files Observe Samples.

(** The catalogue after someone has edited warranty records by hand:
    the unrelated entries are those of [catalogue]. *)
Definition catalogue_edited : value :=
  VDict [("version", VInt 3);
         ("capabilities", VList [
            capability "m1" "Model One" "color" "red, blue"
              [VStr "red"; VStr "blue"];
            capability "m2" "Model Two" "fap_gold" "yes"
              [VBool true];
            capability "m2" "Model Two" "engine" "v6, v8"
              [VStr "v6"; VStr "v8"];
            capability "m9" "Model Nine" "fap_warranty_years" "10"
              [VInt 10];
            capability "m1" "Model 1 (2024)" "trim" "base, sport"
              [VStr "base"; VStr "sport"] ])].

(** A disk with the three files of the two scripts. *)
Definition site (caps blue rules : value) : world :=
  World (<[UpdateCapabilities.capabilities_json := Json caps]>
         (<[UpdateCapabilities.blue_label_capabilities_json := Json blue]>
          {[UpdateRules.rules_json := Json rules]})) ["start"].

(** A disk that is full: every file opened for writing is emptied, and
    the write fails when only the opening brace has reached it. *)
Definition disk_full : Io.env :=
  Io.Env (fun _ => false) (fun _ => JSONDecodeError) (fun _ => false)
         (fun _ _ => Some (OSError, Malformed "{")).

(** A machine on which a file that does not decode is not text in the
    expected encoding. *)
Definition odd_encoding : Io.env :=
  Io.Env (fun _ => false) (fun _ => UnicodeDecodeError) (fun _ => false)
         (fun _ _ => None).

End MoreSamples.
(** * Proofs *)

Import Py Files Observe.

(** ** The exception monad and the dictionaries *)

Section PyLemmas.

Lemma bind_Ok {A B} (m : result A) (f : A -> result B) (b : B) :
  m ≫= f = Ok b <-> exists a, m = Ok a /\ f a = Ok b.
Proof.
  destruct m as [a|e]; cbn; split.
  - eauto.
  - by intros (a' & [= <-] & H).
  - discriminate.
  - by intros (a' & [=] & _).
Qed.

Lemma dict_get_set (k k' : string) (v : value) d :
  dict_get k' (dict_set k v d)
  = if String.eqb k' k then Some v else dict_get k' d.
Proof.
  induction d as [|[k0 v0] d IH]; cbn.
  - by destruct (String.eqb_spec k' k).
  - destruct (String.eqb_spec k k0) as [->|Hk]; cbn.
    + by destruct (String.eqb_spec k' k0).
    + rewrite IH. destruct (String.eqb_spec k' k0) as [->|]; [|done].
      destruct (String.eqb_spec k0 k); congruence.
Qed.

Lemma dict_get_set_eq (k : string) (v : value) d :
  dict_get k (dict_set k v d) = Some v.
Proof. by rewrite dict_get_set, String.eqb_refl. Qed.

Lemma dict_set_set (k : string) (v v' : value) d :
  dict_set k v (dict_set k v' d) = dict_set k v d.
Proof.
  induction d as [|[k0 v0] d IH]; cbn.
  - by rewrite String.eqb_refl.
  - destruct (String.eqb k k0) eqn:E; cbn; rewrite E; [done|by rewrite IH].
Qed.

(** A comprehension whose test never raises is a filter. *)
Lemma list_comp_filter {A} (p : A -> result bool) (q : A -> bool) l :
  Forall (fun x => p x = Ok (q x)) l -> list_comp p l = Ok (List.filter q l).
Proof.
  induction 1 as [|x l Hx _ IH]; cbn; [done|].
  rewrite Hx, IH; cbn. by destruct (q x).
Qed.

(** A comprehension that ends has tested every item, and is a filter. *)
Lemma list_comp_Ok {A} (p : A -> result bool) (q : A -> bool) l r :
  (forall x b, p x = Ok b -> b = q x) ->
  list_comp p l = Ok r ->
  Forall (fun x => p x = Ok (q x)) l /\ r = List.filter q l.
Proof.
  intros Hq. revert r.
  induction l as [|x l IH]; cbn; intros r H.
  - by injection H as <-.
  - apply bind_Ok in H as (b & Hb & H).
    apply bind_Ok in H as (r' & Hr' & [= <-]).
    destruct (IH _ Hr') as [HF ->].
    pose proof (Hq _ _ Hb) as ->.
    split; [by constructor|]. by destruct (q x).
Qed.

Lemma filter_filter_id {A} (q : A -> bool) l :
  List.filter q (List.filter q l) = List.filter q l.
Proof.
  induction l as [|x l IH]; cbn; [done|].
  destruct (q x) eqn:E; cbn; [rewrite E|]; by rewrite ?IH.
Qed.

Lemma filter_none {A} (q : A -> bool) l :
  Forall (fun x => q x = false) l -> List.filter q l = [].
Proof. induction 1 as [|x l Hx _ IH]; cbn; [done|]. by rewrite Hx. Qed.

Lemma filter_all {A} (q : A -> bool) l :
  Forall (fun x => q x = true) l -> List.filter q l = l.
Proof. induction 1 as [|x l Hx _ IH]; cbn; [done|]. by rewrite Hx, IH. Qed.

Lemma Forall_filter_true {A} (q : A -> bool) l :
  Forall (fun x => q x = true) (List.filter q l).
Proof.
  induction l as [|x l IH]; cbn; [done|].
  destruct (q x) eqn:E; [by constructor|done].
Qed.

Lemma Forall_filter_sub {A} (P : A -> Prop) (q : A -> bool) l :
  Forall P l -> Forall P (List.filter q l).
Proof.
  induction 1 as [|x l Hx _ IH]; cbn; [done|].
  destruct (q x); [by constructor|done].
Qed.

Lemma count_app {A} (p : A -> bool) l1 l2 :
  count p (l1 ++ l2) = count p l1 + count p l2.
Proof. unfold count. by rewrite List.filter_app, length_app. Qed.

Lemma count_zero {A} (p : A -> bool) l :
  Forall (fun x => p x = false) l -> count p l = 0.
Proof. intros H. unfold count. by rewrite filter_none. Qed.

End PyLemmas.

(** ** One run of the capability injector *)

Section CapabilityLemmas.
Import UpdateCapabilities CapabilityFacts.

Lemma getitem_set (k : string) (v : value) d :
  getitem (VDict (dict_set k v d)) k = Ok v.
Proof. cbn. by rewrite dict_get_set_eq. Qed.

Lemma keep_cap_Ok c b : keep_cap c = Ok b -> b = negb (is_warranty c).
Proof.
  unfold keep_cap, is_warranty. intros H.
  apply bind_Ok in H as (o & -> & [= <-]). done.
Qed.

(** What a run that ends has done to the document, step by step. *)
Lemma rewrite_Ok data out :
  rewrite data = Ok out <->
  exists d caps cs models,
    data = VDict d /\ dict_get "capabilities" d = Some caps /\
    py_iter caps = Ok cs /\
    Forall (fun c => keep_cap c = Ok (negb (is_warranty c))) cs /\
    for_each models_step [] (unrelated cs) = Ok models /\
    out = VDict (dict_set "capabilities"
                   (VList (unrelated cs ++ new_caps models)) d).
Proof.
  unfold rewrite. split.
  - intros H.
    apply bind_Ok in H as (caps & Hcaps & H).
    destruct data as [| | | | | |d]; try discriminate.
    cbn in Hcaps. destruct (dict_get "capabilities" d) as [caps'|] eqn:Hget;
      [injection Hcaps as ->|discriminate].
    apply bind_Ok in H as (cs & Hcs & H).
    apply bind_Ok in H as (kept & Hkept & H).
    apply (list_comp_Ok _ _ _ _ keep_cap_Ok) in Hkept as [HF ->].
    apply bind_Ok in H as (data1 & [= <-] & H).
    rewrite getitem_set in H. cbn in H.
    apply bind_Ok in H as (models & Hmodels & H).
    cbn in H. injection H as <-.
    exists d, caps, cs, models. by rewrite dict_set_set.
  - intros (d & caps & cs & models & -> & Hget & Hcs & HF & Hmodels & ->).
    cbn. rewrite Hget. cbn. rewrite Hcs. cbn.
    rewrite (list_comp_filter _ _ _ HF). cbn.
    rewrite dict_get_set_eq. cbn.
    fold (unrelated cs). rewrite Hmodels. cbn.
    by rewrite dict_set_set.
Qed.

End CapabilityLemmas.

Section ModelsLemmas.
Import UpdateCapabilities CapabilityFacts.

Lemma hdict_mem_true h (d : hdict) : hdict_mem h d = true <-> h ∈ map fst d.
Proof.
  unfold hdict_mem. rewrite existsb_exists, list_elem_of_fmap.
  split.
  - intros (e & He & Hh). apply bool_decide_eq_true in Hh.
    exists e. by rewrite list_elem_of_In.
  - intros (e & -> & He). exists e. rewrite <- list_elem_of_In.
    by rewrite bool_decide_eq_true.
Qed.

Lemma hdict_mem_false h (d : hdict) : hdict_mem h d = false <-> h ∉ map fst d.
Proof.
  rewrite <- hdict_mem_true. by destruct (hdict_mem h d).
Qed.

Lemma hdict_mem_app h (d1 d2 : hdict) :
  hdict_mem h (d1 ++ d2) = hdict_mem h d1 || hdict_mem h d2.
Proof. apply existsb_app. Qed.

Lemma hdict_put_fresh h k v (d : hdict) :
  hdict_mem h d = false -> hdict_put h k v d = d ++ [(h, (k, v))].
Proof.
  induction d as [|[h' [k' v']] d IH]; cbn; [done|].
  intros [Hh Hd]%orb_false_iff. rewrite Hh. by rewrite IH.
Qed.

Lemma models_step_Ok models cap models' :
  models_step models cap = Ok models' ->
  exists mid h,
    getitem cap "model_id" = Ok mid /\ hash_key mid = Ok h /\
    ( (hdict_mem h models = true /\ models' = models) \/
      (hdict_mem h models = false /\
       exists lbl, getitem cap "model_label" = Ok lbl /\
                   models' = models ++ [(h, (mid, lbl))]) ).
Proof.
  unfold models_step, contains, hdict_set. intros H.
  apply bind_Ok in H as (mid & Hmid & H).
  apply bind_Ok in H as (seen & Hseen & H).
  apply bind_Ok in Hseen as (h & Hh & [= <-]).
  exists mid, h. split; [done|]. split; [done|].
  destruct (hdict_mem h models) eqn:Hmem.
  - left. by injection H as <-.
  - right. split; [done|].
    apply bind_Ok in H as (lbl & Hlbl & H).
    rewrite Hmid in H. cbn in H. rewrite Hh in H. cbn in H.
    rewrite (hdict_put_fresh _ _ _ _ Hmem) in H.
    injection H as <-. by exists lbl.
Qed.

Lemma model_key_Some cap mid h :
  getitem cap "model_id" = Ok mid -> hash_key mid = Ok h ->
  model_key cap = Some h.
Proof. unfold model_key. intros -> . cbn. by intros ->. Qed.

Lemma first_of_model_here h c cs :
  model_key c = Some h -> first_of_model h (c :: cs) = Some c.
Proof.
  intros H. unfold first_of_model, of_model. cbn.
  by rewrite bool_decide_eq_true_2.
Qed.

Lemma first_of_model_later h h' c cs :
  model_key c = Some h -> h' <> h ->
  first_of_model h' (c :: cs) = first_of_model h' cs.
Proof.
  intros H Hne. unfold first_of_model, of_model. cbn.
  rewrite bool_decide_eq_false_2; [done|]. congruence.
Qed.

(** The loop over the capabilities, from any dict built so far: it adds
    one entry per model not yet filed, taken from the first capability
    that carries the model. *)
Lemma for_each_models cs : forall acc models,
  for_each models_step acc cs = Ok models ->
  exists ext,
    models = acc ++ ext /\
    (NoDup (map fst acc) -> NoDup (map fst models)) /\
    Forall (fun e => hdict_mem e.1 acc = false /\ filed_from cs e) ext /\
    Forall (fun c => exists h, model_key c = Some h /\
                               hdict_mem h models = true) cs.
Proof.
  induction cs as [|c cs IH]; cbn; intros acc models H.
  - injection H as <-. exists []. by rewrite app_nil_r.
  - apply bind_Ok in H as (acc' & Hstep & H).
    apply models_step_Ok in Hstep
      as (mid & h & Hmid & Hh & [[Hmem ->]|(Hmem & lbl & Hlbl & ->)]);
      pose proof (model_key_Some _ _ _ Hmid Hh) as Hkey;
      destruct (IH _ _ H) as (ext & -> & Hnd & Hext & Hcs).
    + exists ext. repeat split; [done| |].
      * eapply Forall_impl; [exact Hext|].
        intros e [He (c' & Hc' & Hfiled)]. split; [done|].
        exists c'. split; [|done].
        rewrite (first_of_model_later h); [done..|].
        intros Heq. rewrite Heq in He. congruence.
      * constructor; [|done]. exists h. split; [done|].
        by rewrite hdict_mem_app, Hmem.
    + exists ((h, (mid, lbl)) :: ext).
      rewrite <- app_assoc in *. cbn in *.
      repeat split; [| |].
      * intros Hacc. apply Hnd. rewrite map_app. cbn.
        apply NoDup_app. repeat split; [done| |apply NoDup_singleton].
        intros x Hx ->%list_elem_of_singleton.
        by apply hdict_mem_false in Hmem.
      * constructor.
        -- split; [done|]. exists c.
           split; [by apply first_of_model_here|done].
        -- eapply Forall_impl; [exact Hext|].
           intros e [He (c' & Hc' & Hfiled)].
           rewrite hdict_mem_app in He.
           apply orb_false_iff in He as [He1 He2].
           split; [done|]. exists c'. split; [|done].
           rewrite (first_of_model_later h); [done..|].
           intros Heq. rewrite Heq in He2. cbn in He2.
           by rewrite bool_decide_eq_true_2 in He2.
      * constructor; [|done]. exists h. split; [done|].
        rewrite hdict_mem_app. cbn.
        rewrite bool_decide_eq_true_2 by done. by rewrite orb_true_r.
Qed.

Lemma models_spec cs models :
  for_each models_step [] cs = Ok models ->
  NoDup (map fst models) /\
  Forall (filed_from cs) models /\
  Forall (fun c => exists h, model_key c = Some h /\ h ∈ map fst models) cs.
Proof.
  intros H. destruct (for_each_models _ _ _ H) as (ext & -> & Hnd & Hext & Hcs).
  cbn in *. repeat split.
  - apply Hnd. constructor.
  - eapply Forall_impl; [exact Hext|]. by intros e [_ He].
  - eapply Forall_impl; [exact Hcs|].
    intros c (h & Hk & Hm). exists h. by rewrite <- hdict_mem_true.
Qed.

End ModelsLemmas.

Section RunLemmas.
Import UpdateCapabilities CapabilityFacts.

(** The run, by cases on what the path holds. *)
Lemma update_capabilities_run p w :
  update_capabilities p w =
  match files w !! p with
  | None => (Raise (FileNotFoundError p), w)
  | Some (Malformed _) => (Raise JSONDecodeError, w)
  | Some (Json data) =>
      match rewrite data with
      | Ok out => (Ok tt, World (<[p := Json out]> (files w)) (stdout w))
      | Raise e => (Raise e, w)
      end
  end.
Proof.
  unfold update_capabilities, bind, json_load, lift, open_w, json_dump.
  destruct (files w !! p) as [[t|data]|]; [done| |done].
  destruct (rewrite data) as [out|e]; [|done].
  cbn. by rewrite insert_insert_eq.
Qed.

Lemma array_of_dict key d caps cs :
  dict_get key d = Some caps -> py_iter caps = Ok cs ->
  array_of key (VDict d) = cs.
Proof. unfold array_of. cbn. intros ->. cbn. by intros ->. Qed.

Lemma array_of_set key d l :
  array_of key (VDict (dict_set key (VList l) d)) = l.
Proof.
  apply (array_of_dict _ _ (VList l)); [apply dict_get_set_eq|done].
Qed.

(** A run that ends: the arrays before and after it. *)
Lemma update_capabilities_Ok p w w' :
  update_capabilities p w = (Ok tt, w') ->
  exists data out models,
    doc_at p w = Some data /\ doc_at p w' = Some out /\
    rewrite data = Ok out /\
    w' = World (<[p := Json out]> (files w)) (stdout w) /\
    let cs := capabilities_at p w in
    Forall (fun c => keep_cap c = Ok (negb (is_warranty c))) cs /\
    for_each models_step [] (unrelated cs) = Ok models /\
    capabilities_at p w' = unrelated cs ++ new_caps models /\
    appended p w w' = new_caps models.
Proof.
  rewrite update_capabilities_run. intros H.
  destruct (files w !! p) as [[t|data]|] eqn:Hp; try discriminate.
  destruct (rewrite data) as [out|e] eqn:Hrw; [|discriminate].
  injection H as <-.
  pose proof Hrw as Hrw'.
  apply rewrite_Ok in Hrw' as (d & caps & cs & models & -> & Hget & Hcs & HF & Hm & ->).
  assert (capabilities_at p w = cs) as Hin.
  { unfold capabilities_at, array_at, doc_at. rewrite Hp.
    by apply (array_of_dict _ _ caps). }
  assert (capabilities_at p
            (World (<[p:=Json (VDict (dict_set "capabilities"
               (VList (unrelated cs ++ new_caps models)) d))]> (files w))
               (stdout w)) = unrelated cs ++ new_caps models) as Hout.
  { unfold capabilities_at, array_at, doc_at. cbn.
    rewrite lookup_insert_eq. apply array_of_set. }
  eexists _, _, models. unfold doc_at at 1 2. cbn.
  rewrite Hp, lookup_insert_eq.
  repeat split; try done; cbn; rewrite ?Hin; try done.
  unfold appended. rewrite Hin, Hout. apply drop_app_length.
Qed.

Lemma Forall_new_caps (P : value -> Prop) models :
  (forall k v, Forall P (caps_for (k, v))) -> Forall P (new_caps models).
Proof.
  intros H. unfold new_caps, items.
  induction models as [|[h [k v]] models IH]; cbn [map flat_map]; [done|].
  apply Forall_app. split; [apply H|apply IH].
Qed.

Lemma new_caps_warranty models :
  Forall (fun r => is_warranty r = true) (new_caps models).
Proof. apply Forall_new_caps. intros k v. by repeat constructor. Qed.

Lemma new_caps_keep models :
  Forall (fun r => keep_cap r = Ok (negb (is_warranty r))) (new_caps models).
Proof. apply Forall_new_caps. intros k v. by repeat constructor. Qed.

Lemma unrelated_app cs1 cs2 :
  unrelated (cs1 ++ cs2) = unrelated cs1 ++ unrelated cs2.
Proof. apply List.filter_app. Qed.

Lemma unrelated_new_caps models : unrelated (new_caps models) = [].
Proof.
  apply filter_none. eapply Forall_impl; [apply new_caps_warranty|].
  by intros r ->.
Qed.

Lemma unrelated_output cs models :
  unrelated (unrelated cs ++ new_caps models) = unrelated cs.
Proof.
  rewrite unrelated_app, unrelated_new_caps, app_nil_r.
  apply filter_filter_id.
Qed.

(** A second pass over a rewritten document rebuilds the same document. *)
Lemma rewrite_idem data out : rewrite data = Ok out -> rewrite out = Ok out.
Proof.
  intros H.
  apply rewrite_Ok in H as (d & caps & cs & models & -> & Hget & Hcs & HF & Hm & ->).
  apply rewrite_Ok.
  exists (dict_set "capabilities" (VList (unrelated cs ++ new_caps models)) d),
    (VList (unrelated cs ++ new_caps models)),
    (unrelated cs ++ new_caps models), models.
  rewrite unrelated_output, dict_set_set, dict_get_set_eq.
  repeat split; try done.
  apply Forall_app. split; [|apply new_caps_keep].
  by apply Forall_filter_sub.
Qed.

End RunLemmas.

Section CountLemmas.
Import UpdateCapabilities CapabilityFacts.

Lemma of_model_cap_record h h' k v o raw a :
  hash_key k = Ok h' ->
  of_model h (cap_record k v o raw a) = bool_decide (h' = h).
Proof.
  intros Hk. unfold of_model, model_key. cbn. rewrite Hk. cbn.
  apply bool_decide_ext. split; congruence.
Qed.

Lemma count_flat_map {A B} (p : B -> bool) (f : A -> list B) l :
  count p (flat_map f l) = sum_list (map (fun x => count p (f x)) l).
Proof.
  induction l as [|x l IH]; cbn [flat_map map sum_list]; [done|].
  by rewrite count_app, IH.
Qed.

(** Among the records written for one entry of [models], those of model
    [h] that pass [q]: all that pass [q] if the entry is [h]'s, none
    otherwise. *)
Lemma count_caps_for h (q : value -> bool) h' k v :
  hash_key k = Ok h' ->
  count (fun r => of_model h r && q r) (caps_for (k, v))
  = if bool_decide (h' = h) then count q (caps_for (k, v)) else 0.
Proof.
  intros Hk. unfold count, caps_for. cbn [List.filter].
  rewrite !(of_model_cap_record _ _ _ _ _ _ _ Hk).
  by destruct (bool_decide (h' = h)).
Qed.

Lemma count_key_once h (models : hdict) :
  NoDup (map fst models) -> h ∈ map fst models ->
  sum_list (map (fun e : hkey * (value * value) =>
                   if bool_decide (e.1 = h) then 1 else 0) models) = 1.
Proof.
  induction models as [|e models IH]; cbn; intros Hnd Hin.
  - by apply elem_of_nil in Hin.
  - apply NoDup_cons in Hnd as [Hne Hnd].
    apply elem_of_cons in Hin as [->|Hin].
    + rewrite bool_decide_eq_true_2 by done. f_equal.
      clear IH Hnd. induction models as [|e' models IH]; cbn; [done|].
      apply not_elem_of_cons in Hne as [Hne1 Hne2].
      rewrite bool_decide_eq_false_2 by done. cbn. by apply IH.
    + rewrite bool_decide_eq_false_2; [by apply IH|].
      intros Heq. by rewrite Heq in Hne.
Qed.

(** The records of model [h] among those written, counted through a
    test [q] that passes [n] of the four records of any model. *)
Lemma count_new_caps h (q : value -> bool) n (models : hdict) :
  (forall k v, count q (caps_for (k, v)) = n) ->
  Forall (fun e => hash_key e.2.1 = Ok e.1) models ->
  NoDup (map fst models) -> h ∈ map fst models ->
  count (fun r => of_model h r && q r) (new_caps models) = n.
Proof.
  intros Hq Hkeys Hnd Hin. unfold new_caps, items.
  rewrite count_flat_map, map_map.
  rewrite <- (Nat.mul_1_r n), <- (count_key_once h models Hnd Hin).
  clear Hnd Hin.
  induction Hkeys as [|[h' [k v]] models He _ IH]; cbn [map sum_list]; [lia|].
  cbn [fst snd] in *. unfold id in *.
  rewrite (count_caps_for _ _ _ _ _ He), IH, Hq.
  destruct (bool_decide (h' = h)); lia.
Qed.

Lemma four_records_new_caps h (models : hdict) :
  Forall (fun e => hash_key e.2.1 = Ok e.1) models ->
  NoDup (map fst models) -> h ∈ map fst models ->
  four_records h (new_caps models).
Proof.
  intros Hkeys Hnd Hin. split.
  - rewrite <- (count_new_caps h (fun _ => true) 4 models); try done.
    unfold count. f_equal. apply List.filter_ext. intros r.
    by rewrite andb_true_r.
  - intros o Ho. apply count_new_caps; try done.
    intros k v. unfold tier_ids in Ho.
    repeat (apply elem_of_cons in Ho as [->|Ho]; [done|]).
    by apply elem_of_nil in Ho.
Qed.

End CountLemmas.

(** ** The model at work *)

Section Examples.
Import UpdateCapabilities CapabilityFacts Samples.

(** One entry for [m1] gives that entry and four records of [m1] with
    its label. *)
Example one_model :
  let color := capability "m1" "Model One" "color" "red, blue"
                 [VStr "red"; VStr "blue"] in
  rewrite (VDict [("capabilities", VList [color])])
  = Ok (VDict [("capabilities",
                VList (color :: caps_for (VStr "m1", VStr "Model One")))]).
Proof. reflexivity. Qed.

(** The catalogue has three unrelated entries and two models: eleven
    entries after a run, and eleven after a second one. *)
Example catalogue_twice :
  let w1 := (update_capabilities path (disk catalogue)).2 in
  let w2 := (update_capabilities path w1).2 in
  length (capabilities_at path w1) = 11 /\
  length (capabilities_at path w2) = 11.
Proof. vm_compute. done. Qed.

(** [True], [1] and [1.0] are one key; a string is another. *)
Example one_is_true :
  hash_key (VBool true) = hash_key (VInt 1) /\
  hash_key (VFloat (S754_finite false 4 (-2))) = hash_key (VInt 1) /\
  hash_key (VStr "1") <> hash_key (VInt 1).
Proof. repeat split; done. Qed.

(** A document whose [capabilities] is not iterable, and a model id that
    cannot be a key. *)
Example not_iterable :
  rewrite (VDict [("capabilities", VNone)]) = Raise TypeError.
Proof. reflexivity. Qed.

Example unhashable_model_id :
  rewrite (VDict [("capabilities", VList [
             VDict [("model_id", VList []); ("model_label", VStr "x");
                    ("option_id", VStr "color")] ])])
  = Raise TypeError.
Proof. reflexivity. Qed.

(** A rule whose [rule_id] is not a string has no [startswith]. *)
Example rule_id_not_a_string :
  UpdateRules.rewrite (VDict [("rules", VList [VDict [("rule_id", VInt 7)]])])
  = Raise AttributeError.
Proof. reflexivity. Qed.

End Examples.

(** ** Capability injector: the claims *)

Section CapabilityClaims.
Import UpdateCapabilities CapabilityFacts.

(** C1. Idempotence of the capability injector.  A second run from the
    world the first run left ends the same way in the same world: when
    the first run completed, the second completes and writes the very
    document the first wrote, so the [capabilities] array is the same and
    nothing is doubled; when the first run aborted, so does the second. *)
Theorem update_capabilities_idempotent (p : string) (w : world) :
  update_capabilities p (update_capabilities p w).2 = update_capabilities p w
  /\ capabilities_at p (update_capabilities p (update_capabilities p w).2).2
     = capabilities_at p (update_capabilities p w).2.
Proof.
  assert (update_capabilities p (update_capabilities p w).2
          = update_capabilities p w) as H; [|by rewrite H].
  rewrite (update_capabilities_run p w).
  destruct (files w !! p) as [[t|data]|] eqn:Hp; cbn [snd].
  - by rewrite update_capabilities_run, Hp.
  - destruct (rewrite data) as [out|e] eqn:Hrw; cbn [snd].
    + rewrite update_capabilities_run. cbn [files stdout].
      rewrite lookup_insert_eq, (rewrite_idem _ _ Hrw).
      by rewrite insert_insert_eq.
    + by rewrite update_capabilities_run, Hp, Hrw.
  - by rewrite update_capabilities_run, Hp.
Qed.

End CapabilityClaims.

Section CapabilityRecords.
Import UpdateCapabilities CapabilityFacts Samples.

(** C3, as amended.  After a run that completes, every model carried by a
    capability that the clean-up keeps has exactly four appended records,
    one for each of [fap_standard], [fap_gold], [fap_platinum] and
    [fap_warranty_years].  Models are told apart as the keys of [models]
    are. *)
Theorem four_records_per_kept_model (p : string) (w w' : world) :
  update_capabilities p w = (Ok tt, w') ->
  forall c h, c ∈ unrelated (capabilities_at p w) ->
    model_key c = Some h ->
    four_records h (appended p w w').
Proof.
  intros Hrun c h Hc Hh.
  apply update_capabilities_Ok in Hrun
    as (data & out & models & _ & _ & _ & _ & _ & Hm & _ & ->).
  apply models_spec in Hm as (Hnd & Hfiled & Hcs).
  rewrite Forall_forall in Hcs.
  destruct (Hcs c Hc) as (h' & Hh' & Hin).
  assert (h' = h) as -> by congruence.
  apply four_records_new_caps; [|done..].
  eapply Forall_impl; [exact Hfiled|].
  by intros e (c0 & _ & He & _).
Qed.

Lemma four_records_per_kept_model_witness :
  four_records (KStr "m2")
    (appended path (disk catalogue) (update_capabilities path (disk catalogue)).2).
Proof.
  refine (four_records_per_kept_model path (disk catalogue)
            (update_capabilities path (disk catalogue)).2 _
            (capability "m2" "Model Two" "engine" "v6, v8"
               [VStr "v6"; VStr "v8"]) (KStr "m2") _ _).
  - vm_compute. reflexivity.
  - vm_compute. apply list_elem_of_In. right. left. reflexivity.
  - vm_compute. reflexivity.
Defined.

(** C3 as worded fails: a model whose only capabilities are warranty
    options is cleaned away before the models are collected, and gets no
    record. *)
Lemma four_records_per_input_model_fails :
  ~ Stated.four_records_per_input_model.
Proof.
  intros H.
  destruct (H path (disk only_warranty)
              (update_capabilities path (disk only_warranty)).2
              ltac:(vm_compute; reflexivity)
              (capability "m1" "Model One" "fap_gold" "no, yes"
                 [VBool false; VBool true]) (KStr "m1")) as [H4 _].
  - vm_compute. apply list_elem_of_In. left. reflexivity.
  - vm_compute. reflexivity.
  - vm_compute in H4. discriminate.
Qed.

End CapabilityRecords.

Section CapabilityValues.
Import UpdateCapabilities CapabilityFacts Samples.

(** C5. Every appended record is a record of one of the four options
    and has the allowed values of its option: [[true, false]] for
    [fap_standard], [[false, true]] for [fap_gold] and for [fap_platinum],
    [[1, 2, 3, 4, 5]] for [fap_warranty_years]. *)
Theorem appended_allowed_values (p : string) (w w' : world) :
  update_capabilities p w = (Ok tt, w') ->
  Forall (fun r =>
    (exists o, o ∈ tier_ids /\ option_id_is o r = true) /\
    allowed_values_are "fap_standard" [VBool true; VBool false] r /\
    allowed_values_are "fap_gold" [VBool false; VBool true] r /\
    allowed_values_are "fap_platinum" [VBool false; VBool true] r /\
    allowed_values_are "fap_warranty_years"
      [VInt 1; VInt 2; VInt 3; VInt 4; VInt 5] r)
    (appended p w w').
Proof.
  intros Hrun.
  apply update_capabilities_Ok in Hrun
    as (data & out & models & _ & _ & _ & _ & _ & _ & _ & ->).
  apply Forall_new_caps. intros k v. unfold caps_for, allowed_values_are.
  repeat apply Forall_cons_2; [| | | |done];
    (split; [|by repeat split]).
  - exists "fap_standard". split; [set_solver|done].
  - exists "fap_gold". split; [set_solver|done].
  - exists "fap_platinum". split; [set_solver|done].
  - exists "fap_warranty_years". split; [set_solver|done].
Qed.

Lemma appended_allowed_values_witness :
  Forall (fun r =>
    (exists o, o ∈ tier_ids /\ option_id_is o r = true) /\
    allowed_values_are "fap_standard" [VBool true; VBool false] r /\
    allowed_values_are "fap_gold" [VBool false; VBool true] r /\
    allowed_values_are "fap_platinum" [VBool false; VBool true] r /\
    allowed_values_are "fap_warranty_years"
      [VInt 1; VInt 2; VInt 3; VInt 4; VInt 5] r)
    (appended path (disk catalogue)
       (update_capabilities path (disk catalogue)).2).
Proof.
  refine (appended_allowed_values path (disk catalogue) _ _).
  vm_compute. reflexivity.
Defined.

(** C9. After a run that completes, no capability of the array has
    [option_id] [fap_warranty_tier]. *)
Theorem no_superseded_option (p : string) (w w' : world) :
  update_capabilities p w = (Ok tt, w') ->
  Forall (fun c => option_id_is "fap_warranty_tier" c = false)
    (capabilities_at p w').
Proof.
  intros Hrun.
  apply update_capabilities_Ok in Hrun
    as (data & out & models & _ & _ & _ & _ & HF & _ & -> & _).
  apply Forall_app. split.
  - unfold unrelated.
    eapply Forall_impl; [apply Forall_filter_true|]. cbn beta.
    intros c Hc. apply negb_true_iff in Hc.
    unfold is_warranty in Hc. unfold option_id_is, field_is.
    destruct (getitem c "option_id") as [[| | | |s| |]|]; try done.
    cbn in Hc. apply orb_false_iff in Hc as [Hc _].
    by rewrite Hc.
  - apply Forall_new_caps. intros k v. by repeat constructor.
Qed.

Lemma no_superseded_option_witness :
  Forall (fun c => option_id_is "fap_warranty_tier" c = false)
    (capabilities_at path (update_capabilities path (disk catalogue)).2).
Proof.
  refine (no_superseded_option path (disk catalogue) _ _).
  vm_compute. reflexivity.
Defined.

(** C10. When every capability of the array is a warranty option (so,
    when the array is empty), the run completes and writes an empty
    [capabilities] array: no model is collected, nothing is appended. *)
Theorem only_warranty_gives_empty (p : string) (w : world) (data : value)
  (cs : list value) :
  files w !! p = Some (Json data) ->
  getitem data "capabilities" = Ok (VList cs) ->
  Forall (fun c => is_warranty c = true) cs ->
  exists out,
    update_capabilities p w
    = (Ok tt, World (<[p := Json out]> (files w)) (stdout w)) /\
    getitem out "capabilities" = Ok (VList []) /\
    for_each models_step [] (unrelated cs) = Ok [] /\
    appended p w (update_capabilities p w).2 = [].
Proof.
  intros Hp Hcaps Hall.
  assert (unrelated cs = []) as Hnone.
  { apply filter_none. eapply Forall_impl; [exact Hall|]. by intros c ->. }
  assert (exists d, data = VDict d /\
                    dict_get "capabilities" d = Some (VList cs))
    as (d & -> & Hget).
  { destruct data as [| | | | | |d]; try discriminate. exists d.
    split; [done|]. cbn in Hcaps.
    by destruct (dict_get "capabilities" d) as [x|]; [injection Hcaps as ->|]. }
  assert (rewrite (VDict d)
          = Ok (VDict (dict_set "capabilities" (VList []) d))) as Hrw.
  { apply rewrite_Ok. exists d, (VList cs), cs, [].
    rewrite Hnone. repeat split; try done.
    eapply Forall_impl; [exact Hall|]. cbn beta. intros c Hc.
    unfold keep_cap. unfold is_warranty in Hc |- *.
    by destruct (getitem c "option_id"). }
  exists (VDict (dict_set "capabilities" (VList []) d)).
  assert (update_capabilities p w
          = (Ok tt, World (<[p := Json (VDict (dict_set "capabilities"
                                  (VList []) d))]> (files w)) (stdout w)))
    as Hrun by (by rewrite update_capabilities_run, Hp, Hrw).
  rewrite Hnone.
  split; [done|]. split; [apply getitem_set|]. split; [done|].
  apply update_capabilities_Ok in Hrun as Hok.
  destruct Hok as (data' & out' & models & _ & _ & _ & _ & _ & Hm & _ & Happ).
  rewrite Hrun. cbn [snd]. rewrite Happ.
  assert (capabilities_at p w = cs) as Hin.
  { unfold capabilities_at, array_at, doc_at. rewrite Hp.
    by apply (array_of_dict _ _ (VList cs)). }
  rewrite Hin, Hnone in Hm. cbn in Hm. by injection Hm as <-.
Qed.

Lemma only_warranty_gives_empty_witness :
  exists out,
    update_capabilities path (disk only_warranty)
    = (Ok tt, World (<[path := Json out]> (files (disk only_warranty)))
                (stdout (disk only_warranty))) /\
    getitem out "capabilities" = Ok (VList []) /\
    for_each models_step []
      (unrelated [capability "m1" "Model One" "fap_gold" "no, yes"
                    [VBool false; VBool true]]) = Ok [] /\
    appended path (disk only_warranty)
      (update_capabilities path (disk only_warranty)).2 = [].
Proof.
  refine (only_warranty_gives_empty path (disk only_warranty) only_warranty
            [capability "m1" "Model One" "fap_gold" "no, yes"
               [VBool false; VBool true]] _ _ _).
  - vm_compute. reflexivity.
  - vm_compute. reflexivity.
  - repeat constructor.
Defined.

End CapabilityValues.

Section FirstSeenLabel.
Import UpdateCapabilities CapabilityFacts Samples.

Lemma elem_of_new_caps r (models : hdict) :
  r ∈ new_caps models <-> exists e, e ∈ models /\ r ∈ caps_for e.2.
Proof.
  unfold new_caps, items.
  rewrite list_elem_of_In, in_flat_map. split.
  - intros (kv & Hkv & Hr). apply in_map_iff in Hkv as (e & <- & He).
    exists e. by rewrite !list_elem_of_In.
  - intros (e & He & Hr). exists e.2. rewrite <- !list_elem_of_In.
    split; [|done]. apply list_elem_of_fmap. by exists e.
Qed.

Lemma caps_for_fields r k v :
  r ∈ caps_for (k, v) ->
  getitem r "model_id" = Ok k /\ getitem r "model_label" = Ok v.
Proof.
  unfold caps_for. intros Hr.
  repeat (apply elem_of_cons in Hr as [->|Hr]; [done|]).
  by apply elem_of_nil in Hr.
Qed.

(** C8. After a run that completes, take any capability the clean-up
    keeps, and the first kept capability of the same model: the appended
    records of that model (there are some) all carry the label of that
    first capability, whatever label the later ones carry. *)
Theorem first_seen_label (p : string) (w w' : world) :
  update_capabilities p w = (Ok tt, w') ->
  forall c, c ∈ unrelated (capabilities_at p w) ->
  exists h c0 lbl,
    model_key c = Some h /\
    first_of_model h (unrelated (capabilities_at p w)) = Some c0 /\
    getitem c0 "model_label" = Ok lbl /\
    (exists r, r ∈ appended p w w' /\ of_model h r = true) /\
    (forall r, r ∈ appended p w w' -> of_model h r = true ->
               getitem r "model_label" = Ok lbl).
Proof.
  intros Hrun c Hc.
  apply update_capabilities_Ok in Hrun
    as (data & out & models & _ & _ & _ & _ & _ & Hm & _ & ->).
  apply models_spec in Hm as (_ & Hfiled & Hcs).
  rewrite Forall_forall in Hcs. rewrite Forall_forall in Hfiled.
  destruct (Hcs c Hc) as (h & Hh & Hin).
  apply list_elem_of_fmap in Hin as ([h' [k v]] & -> & He).
  destruct (Hfiled _ He) as (c0 & Hfirst & Hk & Hid & Hlbl).
  cbn [fst snd] in *.
  exists h', c0, v. repeat split; try done.
  - exists (cap_record k v "fap_standard" "yes, no" [VBool true; VBool false]).
    split.
    + apply elem_of_new_caps. exists (h', (k, v)). split; [done|].
      cbn. set_solver.
    + rewrite (of_model_cap_record _ _ _ _ _ _ _ Hk).
      by apply bool_decide_eq_true.
  - intros r Hr Hof.
    apply elem_of_new_caps in Hr as ([h2 [k2 v2]] & He2 & Hr).
    destruct (Hfiled _ He2) as (c2 & Hfirst2 & Hk2 & Hid2 & Hlbl2).
    cbn [fst snd] in *.
    apply caps_for_fields in Hr as [Hrid Hrlbl].
    apply bool_decide_eq_true in Hof.
    rewrite (model_key_Some _ _ _ Hrid Hk2) in Hof.
    injection Hof as ->.
    rewrite Hfirst in Hfirst2. injection Hfirst2 as <-.
    congruence.
Qed.

Lemma first_seen_label_witness :
  exists h c0 lbl,
    model_key (capability "m1" "Model 1 (2024)" "trim" "base, sport"
                 [VStr "base"; VStr "sport"]) = Some h /\
    first_of_model h (unrelated (capabilities_at path (disk catalogue)))
    = Some c0 /\
    getitem c0 "model_label" = Ok lbl /\
    (exists r, r ∈ appended path (disk catalogue)
                     (update_capabilities path (disk catalogue)).2 /\
               of_model h r = true) /\
    (forall r, r ∈ appended path (disk catalogue)
                     (update_capabilities path (disk catalogue)).2 ->
               of_model h r = true ->
               getitem r "model_label" = Ok lbl).
Proof.
  refine (first_seen_label path (disk catalogue) _ _ _ _).
  - vm_compute. reflexivity.
  - vm_compute. apply list_elem_of_In. right. right. left. reflexivity.
Defined.

(** On the sample catalogue the label that is used is the first one. *)
Example catalogue_first_label :
  Forall (fun r => of_model (KStr "m1") r = true ->
                   getitem r "model_label" = Ok (VStr "Model One"))
    (appended path (disk catalogue)
       (update_capabilities path (disk catalogue)).2).
Proof. vm_compute. repeat constructor; discriminate. Qed.

End FirstSeenLabel.

(** ** Rule injector *)

Section RuleLemmas.
Import UpdateRules RuleFacts.

Lemma keep_rule_Ok r b : keep_rule r = Ok b -> b = negb (is_fap r).
Proof.
  unfold keep_rule, is_fap. intros H.
  apply bind_Ok in H as (rid & -> & H).
  apply bind_Ok in H as (sw & Hsw & [= <-]).
  destruct rid; try discriminate. by injection Hsw as <-.
Qed.

Lemma fap_rules_fap : Forall (fun r => is_fap r = true) fap_rules.
Proof. by repeat constructor. Qed.

Lemma fap_rules_keep :
  Forall (fun r => keep_rule r = Ok (negb (is_fap r))) fap_rules.
Proof. by repeat constructor. Qed.

Lemma unrelated_rules_output rs :
  unrelated (unrelated rs ++ fap_rules) = unrelated rs.
Proof.
  unfold unrelated at 1. rewrite List.filter_app.
  rewrite (filter_none _ fap_rules), app_nil_r; [apply filter_filter_id|].
  by repeat constructor.
Qed.

Lemma rules_rewrite_Ok data out :
  rewrite data = Ok out <->
  exists d rules rs,
    data = VDict d /\ dict_get "rules" d = Some rules /\
    py_iter rules = Ok rs /\
    Forall (fun r => keep_rule r = Ok (negb (is_fap r))) rs /\
    out = VDict (dict_set "rules" (VList (unrelated rs ++ fap_rules)) d).
Proof.
  unfold rewrite. split.
  - intros H.
    apply bind_Ok in H as (rules & Hrules & H).
    destruct data as [| | | | | |d]; try discriminate.
    cbn in Hrules. destruct (dict_get "rules" d) as [rules'|] eqn:Hget;
      [injection Hrules as ->|discriminate].
    apply bind_Ok in H as (rs & Hrs & H).
    apply bind_Ok in H as (kept & Hkept & H).
    apply (list_comp_Ok _ _ _ _ keep_rule_Ok) in Hkept as [HF ->].
    apply bind_Ok in H as (data1 & [= <-] & H).
    rewrite getitem_set in H. cbn in H. injection H as <-.
    exists d, rules, rs. by rewrite dict_set_set.
  - intros (d & rules & rs & -> & Hget & Hrs & HF & ->).
    cbn. rewrite Hget. cbn. rewrite Hrs. cbn.
    rewrite (list_comp_filter _ _ _ HF). cbn.
    rewrite dict_get_set_eq. cbn.
    by rewrite dict_set_set.
Qed.

Lemma rules_rewrite_idem data out : rewrite data = Ok out -> rewrite out = Ok out.
Proof.
  intros H.
  apply rules_rewrite_Ok in H as (d & rules & rs & -> & Hget & Hrs & HF & ->).
  apply rules_rewrite_Ok.
  exists (dict_set "rules" (VList (unrelated rs ++ fap_rules)) d),
    (VList (unrelated rs ++ fap_rules)), (unrelated rs ++ fap_rules).
  rewrite unrelated_rules_output, dict_set_set, dict_get_set_eq.
  repeat split; try done.
  apply Forall_app. split; [|apply fap_rules_keep].
  by apply Forall_filter_sub.
Qed.

Lemma add_fap_rules_run p w :
  add_fap_rules p w =
  match files w !! p with
  | None => (Raise (FileNotFoundError p), w)
  | Some (Malformed _) => (Raise JSONDecodeError, w)
  | Some (Json data) =>
      match rewrite data with
      | Ok out => (Ok tt, World (<[p := Json out]> (files w)) (stdout w))
      | Raise e => (Raise e, w)
      end
  end.
Proof.
  unfold add_fap_rules, bind, json_load, lift, open_w, json_dump.
  destruct (files w !! p) as [[t|data]|]; [done| |done].
  destruct (rewrite data) as [out|e]; [|done].
  cbn. by rewrite insert_insert_eq.
Qed.

Lemma add_fap_rules_Ok p w w' :
  add_fap_rules p w = (Ok tt, w') ->
  exists data out,
    doc_at p w = Some data /\ doc_at p w' = Some out /\
    rewrite data = Ok out /\
    w' = World (<[p := Json out]> (files w)) (stdout w) /\
    Forall (fun r => keep_rule r = Ok (negb (is_fap r))) (rules_at p w) /\
    rules_at p w' = unrelated (rules_at p w) ++ fap_rules.
Proof.
  rewrite add_fap_rules_run. intros H.
  destruct (files w !! p) as [[t|data]|] eqn:Hp; try discriminate.
  destruct (rewrite data) as [out|e] eqn:Hrw; [|discriminate].
  injection H as <-.
  pose proof Hrw as Hrw'.
  apply rules_rewrite_Ok in Hrw' as (d & rules & rs & -> & Hget & Hrs & HF & ->).
  assert (rules_at p w = rs) as Hin.
  { unfold rules_at, array_at, doc_at. rewrite Hp.
    by apply (array_of_dict _ _ rules). }
  eexists _, _. unfold doc_at at 1 2. cbn.
  rewrite Hp, lookup_insert_eq.
  repeat split; try done; rewrite ?Hin; try done.
  unfold rules_at, array_at, doc_at. cbn.
  rewrite lookup_insert_eq. apply array_of_set.
Qed.

End RuleLemmas.

Section RuleClaims.
Import UpdateRules RuleFacts Samples.

(** C2. Idempotence of the rule injector.  A second run from the world
    the first run left ends the same way in the same world: when the
    first run completed, the second completes and writes the very
    document the first wrote, so the [rules] array is the same; when the
    first run aborted, so does the second. *)
Theorem add_fap_rules_idempotent (p : string) (w : world) :
  add_fap_rules p (add_fap_rules p w).2 = add_fap_rules p w
  /\ rules_at p (add_fap_rules p (add_fap_rules p w).2).2
     = rules_at p (add_fap_rules p w).2.
Proof.
  assert (add_fap_rules p (add_fap_rules p w).2 = add_fap_rules p w) as H;
    [|by rewrite H].
  rewrite (add_fap_rules_run p w).
  destruct (files w !! p) as [[t|data]|] eqn:Hp; cbn [snd].
  - by rewrite add_fap_rules_run, Hp.
  - destruct (rewrite data) as [out|e] eqn:Hrw; cbn [snd].
    + rewrite add_fap_rules_run. cbn [files stdout].
      rewrite lookup_insert_eq, (rules_rewrite_idem _ _ Hrw).
      by rewrite insert_insert_eq.
    + by rewrite add_fap_rules_run, Hp, Hrw.
  - by rewrite add_fap_rules_run, Hp.
Qed.

(** C4. After a run that completes, the [rules] array holds exactly six
    rules whose [rule_id] starts with [fap_], and among them, for each
    ordered pair of distinct tiers [(a, b)] of [fap_standard], [fap_gold]
    and [fap_platinum], exactly one rule has [when] selecting [a] with
    value true and [effect] excluding [b] with value true. *)
Theorem six_exclusion_rules (p : string) (w w' : world) :
  add_fap_rules p w = (Ok tt, w') ->
  count is_fap (rules_at p w') = 6 /\
  forall a b, a ∈ tiers -> b ∈ tiers -> a <> b ->
    count (excludes a b) (rules_at p w') = 1.
Proof.
  intros Hrun.
  apply add_fap_rules_Ok in Hrun as (data & out & _ & _ & _ & _ & _ & ->).
  assert (forall q : value -> bool, (forall r, q r = true -> is_fap r = true) ->
            count q (unrelated (rules_at p w)) = 0) as Hkept.
  { intros q Hq. apply count_zero.
    eapply Forall_impl; [apply Forall_filter_true|]. cbn beta.
    intros r Hr. apply negb_true_iff in Hr.
    destruct (q r) eqn:E; [|done]. apply Hq in E. congruence. }
  split.
  - rewrite count_app, Hkept by done. done.
  - intros a b Ha Hb Hab. rewrite count_app, Hkept.
    + unfold tiers in Ha, Hb.
      repeat (apply elem_of_cons in Ha as [->|Ha]);
        try (by apply elem_of_nil in Ha);
        repeat (apply elem_of_cons in Hb as [->|Hb]);
        try (by apply elem_of_nil in Hb); done.
    + intros r Hr. unfold excludes in Hr.
      by apply andb_true_iff in Hr as [[Hr _]%andb_true_iff _].
Qed.

Lemma six_exclusion_rules_witness :
  count is_fap (rules_at path (add_fap_rules path (disk rulebook)).2) = 6 /\
  forall a b, a ∈ tiers -> b ∈ tiers -> a <> b ->
    count (excludes a b)
      (rules_at path (add_fap_rules path (disk rulebook)).2) = 1.
Proof.
  refine (six_exclusion_rules path (disk rulebook) _ _).
  vm_compute. reflexivity.
Defined.

End RuleClaims.

(** ** Both injectors: what a run leaves alone, and how it fails *)

Section FrameAndFailure.
Import Outcome Samples.

Lemma getitem_set_other (k k' : string) (v : value) d :
  k' <> k -> getitem (VDict (dict_set k v d)) k' = getitem (VDict d) k'.
Proof.
  intros Hne. cbn. rewrite dict_get_set.
  by destruct (String.eqb_spec k' k).
Qed.

(** C6. A run that completes leaves the unrelated entries as they were:
    the array after the run is the unrelated entries of the array before
    it, unchanged and in their order, followed by entries of the
    namespace; so the unrelated entries after the run are those before
    it, and what was removed or added is of the namespace.  This holds
    for the capabilities (the five warranty option ids) and for the rules
    (the [fap_] prefix); the other keys of the document are untouched. *)
Theorem unrelated_entries_preserved (p : string) (w : world) :
  (forall w', UpdateCapabilities.update_capabilities p w = (Ok tt, w') ->
     preserves CapabilityFacts.is_warranty
       (CapabilityFacts.capabilities_at p w)
       (CapabilityFacts.capabilities_at p w') /\
     CapabilityFacts.unrelated (CapabilityFacts.capabilities_at p w')
     = CapabilityFacts.unrelated (CapabilityFacts.capabilities_at p w) /\
     exists data out, doc_at p w = Some data /\ doc_at p w' = Some out /\
                      same_elsewhere "capabilities" data out) /\
  (forall w', UpdateRules.add_fap_rules p w = (Ok tt, w') ->
     preserves RuleFacts.is_fap (RuleFacts.rules_at p w)
       (RuleFacts.rules_at p w') /\
     RuleFacts.unrelated (RuleFacts.rules_at p w')
     = RuleFacts.unrelated (RuleFacts.rules_at p w) /\
     exists data out, doc_at p w = Some data /\ doc_at p w' = Some out /\
                      same_elsewhere "rules" data out).
Proof.
  split; intros w' Hrun.
  - apply update_capabilities_Ok in Hrun
      as (data & out & models & Hd & Ho & Hrw & _ & _ & _ & Hout & _).
    rewrite Hout. split; [|split].
    + exists (UpdateCapabilities.new_caps models).
      split; [done|apply new_caps_warranty].
    + apply unrelated_output.
    + exists data, out. repeat split; try done.
      apply rewrite_Ok in Hrw as (d & ? & ? & ? & -> & _ & _ & _ & _ & ->).
      intros k Hk. by apply getitem_set_other.
  - apply add_fap_rules_Ok in Hrun
      as (data & out & Hd & Ho & Hrw & _ & _ & Hout).
    rewrite Hout. split; [|split].
    + exists UpdateRules.fap_rules. split; [done|apply fap_rules_fap].
    + apply unrelated_rules_output.
    + exists data, out. repeat split; try done.
      apply rules_rewrite_Ok in Hrw as (d & ? & ? & -> & _ & _ & _ & ->).
      intros k Hk. by apply getitem_set_other.
Qed.

Lemma unrelated_entries_preserved_witness :
  CapabilityFacts.unrelated
    (CapabilityFacts.capabilities_at path
       (UpdateCapabilities.update_capabilities path (disk catalogue)).2)
  = CapabilityFacts.unrelated
      (CapabilityFacts.capabilities_at path (disk catalogue)) /\
  RuleFacts.unrelated
    (RuleFacts.rules_at path (UpdateRules.add_fap_rules path (disk rulebook)).2)
  = RuleFacts.unrelated (RuleFacts.rules_at path (disk rulebook)).
Proof.
  split.
  - refine (proj1 (proj2 (proj1 (unrelated_entries_preserved path
                                   (disk catalogue)) _ _))).
    vm_compute. reflexivity.
  - refine (proj1 (proj2 (proj2 (unrelated_entries_preserved path
                                   (disk rulebook)) _ _))).
    vm_compute. reflexivity.
Defined.

(** The run on a machine that can fail, by cases on what the path holds
    and on what the machine does. *)
Lemma io_run_cases (E : Io.env) (rw : value -> result value) p w :
  (data <- Io.json_load E p ;;
   data <- lift (rw data) ;;
   Io.open_w E p ;;
   Io.json_dump E p data) w =
  match files w !! p with
  | None => (Raise (FileNotFoundError p), w)
  | Some f =>
      if Io.unreadable E p then (Raise OSError, w)
      else
        match f with
        | Malformed t => (Raise (Io.decode_error E t), w)
        | Json data =>
            match rw data with
            | Raise e => (Raise e, w)
            | Ok out =>
                if Io.open_fails E p then (Raise OSError, w)
                else
                  match Io.dump_fails E p out with
                  | Some (e, rest) =>
                      (Raise e, World (<[p := rest]> (files w)) (stdout w))
                  | None =>
                      (Ok tt, World (<[p := Json out]> (files w)) (stdout w))
                  end
            end
        end
  end.
Proof.
  unfold bind, Io.json_load, lift, Io.open_w, Io.json_dump.
  destruct (files w !! p) as [[t|data]|]; [| |done].
  - by destruct (Io.unreadable E p).
  - destruct (Io.unreadable E p); [done|].
    destruct (rw data) as [out|e]; [|done].
    destruct (Io.open_fails E p); [done|]. cbn [files stdout].
    destruct (Io.dump_fails E p out) as [[e rest]|];
      by rewrite insert_insert_eq.
Qed.

(** On the machine where nothing fails these are the runs of [Files]. *)
Lemma quiet_runs p w :
  Io.update_capabilities Io.quiet p w
  = UpdateCapabilities.update_capabilities p w /\
  Io.add_fap_rules Io.quiet p w = UpdateRules.add_fap_rules p w.
Proof.
  unfold Io.update_capabilities, Io.add_fap_rules.
  rewrite !io_run_cases, update_capabilities_run, add_fap_rules_run.
  by destruct (files w !! p) as [[t|data]|].
Qed.

(** One run, whatever its rewrite: the three outcomes, the two that are
    left when the write does not fail, and the failures of the read. *)
Lemma io_run_atomic (E : Io.env) (run : string -> M unit)
  (rw : value -> result value) p w :
  run p w = (data <- Io.json_load E p ;;
             data <- lift (rw data) ;;
             Io.open_w E p ;;
             Io.json_dump E p data) w ->
  atomic_until_write E run rw p w /\
  ((forall data, Io.dump_fails E p data = None) ->
   completes run rw p w \/ exists e, aborts run p w e) /\
  (files w !! p = None -> aborts run p w (FileNotFoundError p)) /\
  (forall t, files w !! p = Some (Malformed t) -> Io.unreadable E p = false ->
             aborts run p w (Io.decode_error E t)).
Proof.
  intros Hrun. unfold atomic_until_write, completes, aborts, write_fails.
  rewrite Hrun, io_run_cases.
  destruct (files w !! p) as [[t|data]|] eqn:Hp.
  - destruct (Io.unreadable E p) eqn:Hu;
      (split; [right; left; eauto|]); (split; [right; eauto|]);
      (split; [done|]); intros t' [= <-] ?; congruence.
  - destruct (Io.unreadable E p) eqn:Hu.
    { split; [right; left; eauto|]. split; [right; eauto|]. by split. }
    destruct (rw data) as [out|e] eqn:Hrw.
    2:{ split; [right; left; eauto|]. split; [right; eauto|]. by split. }
    destruct (Io.open_fails E p) eqn:Ho.
    { split; [right; left; eauto|]. split; [right; eauto|]. by split. }
    destruct (Io.dump_fails E p out) as [[e rest]|] eqn:Hd.
    + split; [right; right; by exists data, out, e, rest|].
      split; [|by split]. intros Hnone. rewrite Hnone in Hd. discriminate.
    + split; [left; by exists data, out|].
      split; [left; by exists data, out|]. by split.
  - split; [right; left; eauto|]. split; [right; eauto|]. by split.
Qed.

(** C7, as amended.  A run is atomic up to its write: it completes, and
    the file holds the rewritten document; or it aborts with an
    exception before anything is written, and the world is as it was
    (so when the file is missing, cannot be read or does not decode, when
    the array is missing, and when the rewrite in memory raises); or the
    document was read and rewritten in memory and the write itself
    fails after the file was opened and emptied, and the file holds what
    the failed write left.  When the write does not fail, only the first
    two remain.  An exception of a run is not caught: the script ends
    with it, in the world the run had reached, without going on to the
    next file or printing. *)
Theorem runs_atomic_until_write (E : Io.env) (p : string) (w : world) :
  atomic_until_write E (Io.update_capabilities E)
    UpdateCapabilities.rewrite p w /\
  atomic_until_write E (Io.add_fap_rules E) UpdateRules.rewrite p w /\
  named_failures_abort E (Io.update_capabilities E) "capabilities" p w /\
  named_failures_abort E (Io.add_fap_rules E) "rules" p w /\
  ((forall data, Io.dump_fails E p data = None) ->
   (completes (Io.update_capabilities E) UpdateCapabilities.rewrite p w \/
    exists e, aborts (Io.update_capabilities E) p w e) /\
   (completes (Io.add_fap_rules E) UpdateRules.rewrite p w \/
    exists e, aborts (Io.add_fap_rules E) p w e)) /\
  (forall e w',
     Io.update_capabilities E UpdateCapabilities.capabilities_json w
     = (Raise e, w') ->
     Io.capabilities_main E w = (Raise e, w')) /\
  (forall e w',
     Io.add_fap_rules E UpdateRules.rules_json w = (Raise e, w') ->
     Io.rules_main E w = (Raise e, w')).
Proof.
  destruct (io_run_atomic E (Io.update_capabilities E)
              UpdateCapabilities.rewrite p w)
    as (Hc1 & Hc2 & Hc3 & Hc4); [done|].
  destruct (io_run_atomic E (Io.add_fap_rules E) UpdateRules.rewrite p w)
    as (Hr1 & Hr2 & Hr3 & Hr4); [done|].
  unfold named_failures_abort, aborts.
  split; [done|]. split; [done|].
  split; [split; [done|split; [done|]]|].
  { intros d Hp Hu Hget. unfold Io.update_capabilities.
    rewrite io_run_cases, Hp, Hu.
    unfold UpdateCapabilities.rewrite. cbn. by rewrite Hget. }
  split; [split; [done|split; [done|]]|].
  { intros d Hp Hu Hget. unfold Io.add_fap_rules.
    rewrite io_run_cases, Hp, Hu.
    unfold UpdateRules.rewrite. cbn. by rewrite Hget. }
  split; [by split; auto|]. split.
  - intros e w' He. unfold Io.capabilities_main, bind. by rewrite He.
  - intros e w' He. unfold Io.rules_main, bind. by rewrite He.
Qed.

Lemma runs_atomic_until_write_witness :
  aborts (Io.update_capabilities MoreSamples.odd_encoding)
    "/srv/logic/missing.json" (disk catalogue)
    (FileNotFoundError "/srv/logic/missing.json") /\
  aborts (Io.add_fap_rules MoreSamples.odd_encoding) "/srv/logic/README"
    (disk rulebook) UnicodeDecodeError.
Proof.
  split.
  - refine (proj1 (proj1 (proj2 (proj2
              (runs_atomic_until_write MoreSamples.odd_encoding
                 "/srv/logic/missing.json" (disk catalogue))))) _).
    vm_compute. reflexivity.
  - refine (proj1 (proj2 (proj1 (proj2 (proj2 (proj2
              (runs_atomic_until_write MoreSamples.odd_encoding
                 "/srv/logic/README" (disk rulebook))))))) "notes" _ _).
    + vm_compute. reflexivity.
    + reflexivity.
Defined.

(** On a full disk the run on the catalogue reads and rewrites it, opens
    the file, and fails: the file is left with the brace that was
    written. *)
Example catalogue_on_full_disk :
  write_fails MoreSamples.disk_full
    (Io.update_capabilities MoreSamples.disk_full)
    UpdateCapabilities.rewrite path (disk catalogue) /\
  files (Io.update_capabilities MoreSamples.disk_full path
           (disk catalogue)).2 !! path = Some (Malformed "{").
Proof.
  split; [|vm_compute; reflexivity].
  exists catalogue.
  destruct (UpdateCapabilities.rewrite catalogue) as [out|e] eqn:Hrw;
    [|vm_compute in Hrw; discriminate].
  exists out, OSError, (Malformed "{").
  split; [reflexivity|]. split; [done|]. split; [reflexivity|].
  unfold Io.update_capabilities. rewrite io_run_cases.
  replace (files (disk catalogue) !! path) with (Some (Json catalogue))
    by reflexivity.
  cbn [Io.unreadable Io.open_fails Io.dump_fails MoreSamples.disk_full].
  by rewrite Hrw.
Qed.

(** C7 as worded fails, twice over.  With nothing failing on the
    machine, a capability without [option_id] aborts the run with a
    [KeyError] for that field, which is no read, decoding or
    missing-array error.  And on a full disk the run neither completes
    nor leaves the file as it was: the file has been emptied when the
    write fails. *)
Lemma atomicity_as_worded_fails :
  ~ Stated.atomic_on_named_failures /\
  ~ Stated.atomic_whatever_the_exception.
Proof.
  split; intros H.
  - assert (Io.update_capabilities Io.quiet path (disk no_option_id)
            = (Raise (KeyError "option_id"), disk no_option_id)) as Hrun
      by (vm_compute; reflexivity).
    destruct (H Io.quiet path (disk no_option_id))
      as [[(data & out & _ & _ & Hc)|(e & He & H3)] _].
    + rewrite Hrun in Hc. discriminate.
    + unfold aborts in He. rewrite Hrun in He. injection He as <-.
      destruct H3 as [H3|[H3|[(t & Ht & _)|H3]]]; discriminate.
  - assert (Io.update_capabilities MoreSamples.disk_full path (disk catalogue)
            = (Raise OSError,
               World (<[path := Malformed "{"]> (files (disk catalogue)))
                 (stdout (disk catalogue)))) as Hrun
      by (vm_compute; reflexivity).
    destruct (H MoreSamples.disk_full path (disk catalogue))
      as [[(data & out & _ & _ & Hc)|(e & He)] _].
    + rewrite Hrun in Hc. discriminate.
    + unfold aborts in He. rewrite Hrun in He.
      apply (f_equal (fun r : result unit * world => files r.2 !! path)) in He.
      vm_compute in He. discriminate.
Qed.

End FrameAndFailure.

(** * Beyond the claims *)

(** ** Which documents are accepted *)

Section AcceptanceLemmas.
Import UpdateCapabilities CapabilityFacts Acceptance.






End AcceptanceLemmas.

Section AcceptanceTheorems.
Import UpdateCapabilities CapabilityFacts Acceptance Samples MoreSamples.


End AcceptanceTheorems.

Section RuleAcceptance.
Import UpdateRules RuleFacts Acceptance Samples MoreSamples.




End RuleAcceptance.

(** ** Which exception a malformed document raises *)

Section Exceptions.
Import Acceptance Samples MoreSamples.

Lemma list_comp_raise {A} (p : A -> result bool) (e : exn) l :
  Forall (fun x => (exists b, p x = Ok b) \/ p x = Raise e) l ->
  Exists (fun x => p x = Raise e) l ->
  list_comp p l = Raise e.
Proof.
  induction 1 as [|x l Hx Hl IH]; intros Hex.
  - by apply Exists_nil in Hex.
  - cbn. destruct Hx as [(b & Hb)|Hx]; [|by rewrite Hx].
    rewrite Hb. cbn.
    apply Exists_cons in Hex as [Hex|Hex]; [congruence|].
    by rewrite IH.
Qed.

(** X3. A value under the array's key that is not a list: the empty
    string and the empty object are taken for an empty array, and every
    other value ([null], a boolean, a number, a string or an object that
    is not empty) raises [TypeError].  So does a document that is not an
    object.  This holds for both injectors. *)
Theorem non_array_values (d : list (string * value)) (v : value) :
  (forall l, v <> VList l) ->
  (dict_get "capabilities" d = Some v ->
   UpdateCapabilities.rewrite (VDict d)
   = if empty_iterable v
     then Ok (VDict (dict_set "capabilities" (VList []) d))
     else Raise TypeError) /\
  (dict_get "rules" d = Some v ->
   UpdateRules.rewrite (VDict d)
   = if empty_iterable v
     then Ok (VDict (dict_set "rules" (VList UpdateRules.fap_rules) d))
     else Raise TypeError) /\
  (forall data, ~ is_dict data ->
     UpdateCapabilities.rewrite data = Raise TypeError /\
     UpdateRules.rewrite data = Raise TypeError).
Proof.
  intros Hnl. split; [|split].
  - intros Hget. unfold UpdateCapabilities.rewrite. cbn. rewrite Hget.
    destruct v as [| | | |s|l|d']; cbn; try done.
    + destruct s; [|done]. cbn. rewrite !dict_get_set_eq. cbn.
      by rewrite !dict_set_set.
    + by destruct (Hnl l).
    + destruct d' as [|[k v'] d']; [|done]. cbn. rewrite !dict_get_set_eq.
      cbn. by rewrite !dict_set_set.
  - intros Hget. unfold UpdateRules.rewrite. cbn. rewrite Hget.
    destruct v as [| | | |s|l|d']; cbn; try done.
    + destruct s; [|done]. cbn. rewrite !dict_get_set_eq. cbn.
      by rewrite !dict_set_set.
    + by destruct (Hnl l).
    + destruct d' as [|[k v'] d']; [|done]. cbn. rewrite !dict_get_set_eq.
      cbn. by rewrite !dict_set_set.
  - intros data Hnd. destruct data; try done. destruct Hnd. by eexists.
Qed.

Lemma non_array_values_witness :
  UpdateCapabilities.rewrite
    (VDict [("version", VInt 3); ("capabilities", VDict [])])
  = Ok (VDict [("version", VInt 3); ("capabilities", VList [])]) /\
  UpdateRules.rewrite (VDict [("rules", VStr "none")]) = Raise TypeError.
Proof.
  split.
  - refine (proj1 (non_array_values
                     [("version", VInt 3); ("capabilities", VDict [])]
                     (VDict []) _) _); [done|reflexivity].
  - refine (proj1 (proj2 (non_array_values [("rules", VStr "none")]
                            (VStr "none") _)) _); [done|reflexivity].
Defined.

(** X4. The clean-up of the capability injector runs over the whole
    array before any model is looked at: when the items are objects and
    one of them has no [option_id], the run raises [KeyError] for
    [option_id], whatever the model fields of the items are. *)
Theorem missing_option_id (d : list (string * value)) (cs : list value) :
  dict_get "capabilities" d = Some (VList cs) ->
  Forall is_dict cs ->
  Exists (fun c => ~ has_key "option_id" c) cs ->
  UpdateCapabilities.rewrite (VDict d) = Raise (KeyError "option_id").
Proof.
  intros Hget Hdict Hex. unfold UpdateCapabilities.rewrite. cbn.
  rewrite Hget. cbn.
  rewrite (list_comp_raise _ (KeyError "option_id")); [done| |].
  - eapply Forall_impl; [exact Hdict|]. cbn beta. intros c (dc & ->).
    unfold UpdateCapabilities.keep_cap. cbn.
    destruct (dict_get "option_id" dc); cbn; eauto.
  - rewrite Exists_exists in Hex. destruct Hex as (c & Hc & Hno).
    rewrite Forall_forall in Hdict. destruct (Hdict c Hc) as (dc & ->).
    apply Exists_exists. exists (VDict dc). split; [done|].
    unfold UpdateCapabilities.keep_cap, has_key in *. cbn in *.
    destruct (dict_get "option_id" dc); [|done]. destruct Hno. eauto.
Qed.

Lemma missing_option_id_witness :
  UpdateCapabilities.rewrite
    (VDict [("capabilities",
             VList [VDict [("option_id", VStr "color")];
                    VDict [("model_id", VStr "m1")]])])
  = Raise (KeyError "option_id").
Proof.
  refine (missing_option_id _ [VDict [("option_id", VStr "color")];
                               VDict [("model_id", VStr "m1")]] _ _ _).
  - reflexivity.
  - repeat constructor; by eexists.
  - apply Exists_cons_tl, Exists_cons_hd. intros (v & Hv). discriminate.
Defined.

(** X5. When the items of [rules] are objects that have a [rule_id] and
    one of these is not a string, the rule injector raises
    [AttributeError]; when the items are objects whose [rule_id], where
    there is one, is a string, and one has none, it raises [KeyError]
    for [rule_id]. *)
Theorem bad_rule_id (d : list (string * value)) (rs : list value) :
  dict_get "rules" d = Some (VList rs) ->
  (Forall (has_key "rule_id") rs ->
   Exists (fun r => forall s, getitem r "rule_id" <> Ok (VStr s)) rs ->
   UpdateRules.rewrite (VDict d) = Raise AttributeError) /\
  (Forall (fun r => is_dict r /\
             forall v, getitem r "rule_id" = Ok v -> exists s, v = VStr s) rs ->
   Exists (fun r => ~ has_key "rule_id" r) rs ->
   UpdateRules.rewrite (VDict d) = Raise (KeyError "rule_id")).
Proof.
  intros Hget. unfold UpdateRules.rewrite. cbn. rewrite Hget. cbn.
  split; intros Hall Hex.
  - rewrite (list_comp_raise _ AttributeError); [done| |].
    + eapply Forall_impl; [exact Hall|]. cbn beta. intros r (v & Hv).
      unfold UpdateRules.keep_rule. rewrite Hv. cbn.
      destruct v; cbn; eauto.
    + rewrite Exists_exists in Hex. destruct Hex as (r & Hr & Hns).
      rewrite Forall_forall in Hall. destruct (Hall r Hr) as (v & Hv).
      apply Exists_exists. exists r. split; [done|].
      unfold UpdateRules.keep_rule. rewrite Hv. cbn.
      destruct v; try done. by destruct (Hns s).
  - rewrite (list_comp_raise _ (KeyError "rule_id")); [done| |].
    + eapply Forall_impl; [exact Hall|]. cbn beta.
      intros r [(dr & ->) Hstr].
      unfold UpdateRules.keep_rule. cbn in *.
      destruct (dict_get "rule_id" dr) as [v|]; cbn; [|eauto].
      destruct (Hstr v eq_refl) as (s & ->). cbn. eauto.
    + rewrite Exists_exists in Hex. destruct Hex as (r & Hr & Hno).
      rewrite Forall_forall in Hall. destruct (Hall r Hr) as [(dr & ->) _].
      apply Exists_exists. exists (VDict dr). split; [done|].
      unfold UpdateRules.keep_rule, has_key in *. cbn in *.
      destruct (dict_get "rule_id" dr); [|done]. destruct Hno. eauto.
Qed.

Lemma bad_rule_id_witness :
  UpdateRules.rewrite
    (VDict [("rules", VList [VDict [("rule_id", VStr "a")];
                             VDict [("rule_id", VInt 7)]])])
  = Raise AttributeError /\
  UpdateRules.rewrite
    (VDict [("rules", VList [VDict [("rule_id", VStr "a")];
                             VDict [("when", VNone)]])])
  = Raise (KeyError "rule_id").
Proof.
  split.
  - refine (proj1 (bad_rule_id _ [VDict [("rule_id", VStr "a")];
                                  VDict [("rule_id", VInt 7)]] _) _ _).
    + reflexivity.
    + repeat constructor; by eexists.
    + apply Exists_cons_tl, Exists_cons_hd. intros s. discriminate.
  - refine (proj2 (bad_rule_id _ [VDict [("rule_id", VStr "a")];
                                  VDict [("when", VNone)]] _) _ _).
    + reflexivity.
    + constructor; [|constructor; [|constructor]].
      * split; [by eexists|]. intros v [= <-]. by eexists.
      * split; [by eexists|]. intros v [=].
    + apply Exists_cons_tl, Exists_cons_hd. intros (v & Hv). discriminate.
Defined.

End Exceptions.

(** ** What a run touches, and what the result depends on *)

Section Frame.
Import Acceptance Samples MoreSamples.

Lemma dict_set_keys (k : string) (v : value) d :
  is_Some (dict_get k d) -> map fst (dict_set k v d) = map fst d.
Proof.
  induction d as [|[k' v'] d IH]; cbn; intros [x Hx]; [done|].
  destruct (String.eqb k k'); cbn; [done|]. rewrite IH; eauto.
Qed.

(** X6. A run of either injector reads and writes the file at its path
    and nothing else: every other file is as it was, whether the run
    completes or aborts, and nothing is printed. *)
Theorem run_touches_its_file_only (p q : string) (w : world) :
  q <> p ->
  files (UpdateCapabilities.update_capabilities p w).2 !! q = files w !! q /\
  files (UpdateRules.add_fap_rules p w).2 !! q = files w !! q /\
  stdout (UpdateCapabilities.update_capabilities p w).2 = stdout w /\
  stdout (UpdateRules.add_fap_rules p w).2 = stdout w.
Proof.
  intros Hne. rewrite update_capabilities_run, add_fap_rules_run.
  destruct (files w !! p) as [[t|data]|]; cbn; try done.
  destruct (UpdateCapabilities.rewrite data), (UpdateRules.rewrite data);
    cbn; by rewrite ?lookup_insert_ne.
Qed.

Lemma run_touches_its_file_only_witness :
  files (UpdateCapabilities.update_capabilities path (disk catalogue)).2
    !! "/srv/logic/README" = files (disk catalogue) !! "/srv/logic/README" /\
  files (UpdateRules.add_fap_rules path (disk catalogue)).2
    !! "/srv/logic/README" = files (disk catalogue) !! "/srv/logic/README" /\
  stdout (UpdateCapabilities.update_capabilities path (disk catalogue)).2
  = stdout (disk catalogue) /\
  stdout (UpdateRules.add_fap_rules path (disk catalogue)).2
  = stdout (disk catalogue).
Proof.
  refine (run_touches_its_file_only path "/srv/logic/README"
            (disk catalogue) _).
  discriminate.
Defined.

(** X7. A run that completes keeps the keys of the document, in their
    order: the array stays where it was among them, no key is added or
    dropped.  This holds for both injectors. *)
Theorem document_keys_kept (data out : value) :
  UpdateCapabilities.rewrite data = Ok out \/
  UpdateRules.rewrite data = Ok out ->
  is_dict data /\ is_dict out /\ keys_of out = keys_of data.
Proof.
  intros [Hrw|Hrw].
  - apply rewrite_Ok in Hrw as (d & ? & ? & ? & -> & Hget & _ & _ & _ & ->).
    repeat split; [by eexists..|]. cbn. apply dict_set_keys. eauto.
  - apply rules_rewrite_Ok in Hrw as (d & ? & ? & -> & Hget & _ & _ & ->).
    repeat split; [by eexists..|]. cbn. apply dict_set_keys. eauto.
Qed.

Lemma document_keys_kept_witness :
  is_dict rulebook /\
  is_dict (VDict [("rules",
                   VList (RuleFacts.unrelated (array_of "rules" rulebook)
                          ++ UpdateRules.fap_rules));
                  ("schema", VStr "1.0")]) /\
  keys_of (VDict [("rules",
                   VList (RuleFacts.unrelated (array_of "rules" rulebook)
                          ++ UpdateRules.fap_rules));
                  ("schema", VStr "1.0")])
  = keys_of rulebook.
Proof.
  refine (document_keys_kept rulebook _ _). right. reflexivity.
Defined.

(** X8. What a run writes depends on the unrelated entries only: two
    runs of the capability injector that complete on arrays with the
    same entries outside the warranty namespace leave the same array,
    whatever warranty records the arrays held, and so do two runs of the
    rule injector on arrays with the same rules outside [fap_]. *)
Theorem result_from_unrelated_entries (p1 p2 : string) (w1 w2 : world) :
  (forall w1' w2',
     UpdateCapabilities.update_capabilities p1 w1 = (Ok tt, w1') ->
     UpdateCapabilities.update_capabilities p2 w2 = (Ok tt, w2') ->
     CapabilityFacts.unrelated (CapabilityFacts.capabilities_at p1 w1)
     = CapabilityFacts.unrelated (CapabilityFacts.capabilities_at p2 w2) ->
     CapabilityFacts.capabilities_at p1 w1'
     = CapabilityFacts.capabilities_at p2 w2') /\
  (forall w1' w2',
     UpdateRules.add_fap_rules p1 w1 = (Ok tt, w1') ->
     UpdateRules.add_fap_rules p2 w2 = (Ok tt, w2') ->
     RuleFacts.unrelated (RuleFacts.rules_at p1 w1)
     = RuleFacts.unrelated (RuleFacts.rules_at p2 w2) ->
     RuleFacts.rules_at p1 w1' = RuleFacts.rules_at p2 w2').
Proof.
  split; intros w1' w2' H1 H2 Heq.
  - apply update_capabilities_Ok in H1
      as (? & ? & m1 & _ & _ & _ & _ & _ & Hm1 & -> & _).
    apply update_capabilities_Ok in H2
      as (? & ? & m2 & _ & _ & _ & _ & _ & Hm2 & -> & _).
    rewrite Heq in *. by assert (m1 = m2) as -> by congruence.
  - apply add_fap_rules_Ok in H1 as (? & ? & _ & _ & _ & _ & _ & ->).
    apply add_fap_rules_Ok in H2 as (? & ? & _ & _ & _ & _ & _ & ->).
    by rewrite Heq.
Qed.

Lemma result_from_unrelated_entries_witness :
  CapabilityFacts.capabilities_at path
    (UpdateCapabilities.update_capabilities path (disk catalogue)).2
  = CapabilityFacts.capabilities_at path
      (UpdateCapabilities.update_capabilities path (disk catalogue_edited)).2.
Proof.
  refine (proj1 (result_from_unrelated_entries path path (disk catalogue)
                   (disk catalogue_edited)) _ _ _ _ _);
    vm_compute; reflexivity.
Defined.

End Frame.

(** ** The records the capability injector appends *)

Section AppendedRecords.
Import UpdateCapabilities CapabilityFacts Acceptance Samples MoreSamples.

Lemma omap_model_key_cons c cs h :
  model_key c = Some h -> omap model_key (c :: cs) = h :: omap model_key cs.
Proof. intros H. cbn. by rewrite H. Qed.

(** The keys of [models] after the loop: those it had, then the models
    of the capabilities that were not among them, each once, in the
    order in which they are first met. *)
Lemma for_each_models_keys cs : forall acc models,
  for_each models_step acc cs = Ok models ->
  map fst models
  = map fst acc ++ first_occurrences (map fst acc) (omap model_key cs).
Proof.
  induction cs as [|c cs IH]; intros acc models H.
  - cbn in H. injection H as <-. cbn. by rewrite app_nil_r.
  - cbn [for_each] in H. apply bind_Ok in H as (acc' & Hstep & H).
    apply models_step_Ok in Hstep
      as (mid & h & Hmid & Hh & [[Hmem ->]|(Hmem & lbl & Hlbl & ->)]);
      rewrite (omap_model_key_cons _ _ _ (model_key_Some _ _ _ Hmid Hh));
      cbn [first_occurrences]; rewrite (IH _ _ H).
    + apply hdict_mem_true in Hmem. by rewrite bool_decide_eq_true_2.
    + apply hdict_mem_false in Hmem. rewrite bool_decide_eq_false_2 by done.
      rewrite map_app. cbn. by rewrite <- app_assoc.
Qed.

Lemma new_caps_model_and_option (models : hdict) :
  Forall (fun e => hash_key e.2.1 = Ok e.1) models ->
  map model_and_option (new_caps models)
  = flat_map (fun h => map (fun o => (Some h, Ok (VStr o))) tier_ids)
      (map fst models).
Proof.
  unfold new_caps, items.
  induction 1 as [|[h [k v]] models He _ IH]; [done|].
  cbn [map flat_map fst snd] in *. rewrite map_app, IH. f_equal.
  unfold model_and_option, model_key. cbn. by rewrite He.
Qed.

(** X9. The appended records come model by model, the models in the
    order in which the kept capabilities first mention them, and for
    each model in the order [fap_standard], [fap_gold], [fap_platinum],
    [fap_warranty_years]; so the array after a run has four entries per
    distinct model more than there are unrelated entries. *)
Theorem appended_in_first_seen_order (p : string) (w w' : world) :
  update_capabilities p w = (Ok tt, w') ->
  let kept := unrelated (capabilities_at p w) in
  map model_and_option (appended p w w')
  = flat_map (fun h => map (fun o => (Some h, Ok (VStr o))) tier_ids)
      (distinct_models kept) /\
  length (capabilities_at p w')
  = length kept + 4 * length (distinct_models kept).
Proof.
  intros Hrun kept. subst kept.
  apply update_capabilities_Ok in Hrun
    as (data & out & models & _ & _ & _ & _ & _ & Hm & -> & ->).
  pose proof (for_each_models_keys _ _ _ Hm) as Hkeys. cbn in Hkeys.
  apply models_spec in Hm as (_ & Hfiled & _).
  assert (Forall (fun e : hkey * (value * value) =>
                    hash_key e.2.1 = Ok e.1) models) as Hhash.
  { eapply Forall_impl; [exact Hfiled|]. by intros e (c0 & _ & He & _). }
  unfold distinct_models. rewrite <- Hkeys. split.
  - by apply new_caps_model_and_option.
  - rewrite length_app. f_equal.
    rewrite <- (length_map model_and_option).
    rewrite (new_caps_model_and_option _ Hhash).
    clear. induction (map fst models) as [|h l IH]; [done|].
    cbn [flat_map]. rewrite length_app, IH. cbn. lia.
Qed.

Lemma appended_in_first_seen_order_witness :
  let kept := unrelated (capabilities_at path (disk catalogue)) in
  map model_and_option
    (appended path (disk catalogue)
       (update_capabilities path (disk catalogue)).2)
  = flat_map (fun h => map (fun o => (Some h, Ok (VStr o))) tier_ids)
      (distinct_models kept) /\
  length (capabilities_at path (update_capabilities path (disk catalogue)).2)
  = length kept + 4 * length (distinct_models kept).
Proof.
  refine (appended_in_first_seen_order path (disk catalogue) _ _).
  vm_compute. reflexivity.
Defined.

(** X10. Every appended record has the five keys [model_id],
    [model_label], [option_id], [raw], [allowed_values], in this order,
    and its [model_id] is the value the first kept capability of its
    model holds there, not that of a later capability whose id is an
    equal key. *)
Theorem appended_record_shape (p : string) (w w' : world) :
  update_capabilities p w = (Ok tt, w') ->
  Forall (fun r =>
    keys_of r
    = ["model_id"; "model_label"; "option_id"; "raw"; "allowed_values"] /\
    exists h c0,
      model_key r = Some h /\
      first_of_model h (unrelated (capabilities_at p w)) = Some c0 /\
      getitem r "model_id" = getitem c0 "model_id")
    (appended p w w').
Proof.
  intros Hrun.
  apply update_capabilities_Ok in Hrun
    as (data & out & models & _ & _ & _ & _ & _ & Hm & _ & ->).
  apply models_spec in Hm as (_ & Hfiled & _).
  rewrite Forall_forall in Hfiled. apply Forall_forall. intros r Hr.
  apply elem_of_new_caps in Hr as ([h [k v]] & He & Hr).
  destruct (Hfiled _ He) as (c0 & Hc0 & Hk & Hid & _). cbn [fst snd] in *.
  split.
  - unfold caps_for in Hr.
    repeat (apply elem_of_cons in Hr as [->|Hr]; [done|]).
    by apply elem_of_nil in Hr.
  - apply caps_for_fields in Hr as [Hrid _].
    exists h, c0. split; [by apply (model_key_Some _ k)|]. split; [done|].
    congruence.
Qed.

Lemma appended_record_shape_witness :
  Forall (fun r =>
    keys_of r
    = ["model_id"; "model_label"; "option_id"; "raw"; "allowed_values"] /\
    exists h c0,
      model_key r = Some h /\
      first_of_model h (unrelated (capabilities_at path (disk catalogue)))
      = Some c0 /\
      getitem r "model_id" = getitem c0 "model_id")
    (appended path (disk catalogue)
       (update_capabilities path (disk catalogue)).2).
Proof.
  refine (appended_record_shape path (disk catalogue) _ _).
  vm_compute. reflexivity.
Defined.

End AppendedRecords.

(** ** The scripts as a whole, and runs one after another *)

Section Scripts.
Import Acceptance Outcome Samples MoreSamples.

Lemma world_eta w : World (files w) (stdout w) = w.
Proof. by destruct w. Qed.

(** A file that already holds a document the rewrite maps to itself is
    written back as it is. *)
Lemma update_capabilities_fixed p w out :
  files w !! p = Some (Json out) ->
  UpdateCapabilities.rewrite out = Ok out ->
  UpdateCapabilities.update_capabilities p w = (Ok tt, w).
Proof.
  intros Hp Hrw. rewrite update_capabilities_run, Hp, Hrw.
  by rewrite insert_id, world_eta.
Qed.

Lemma add_fap_rules_fixed p w out :
  files w !! p = Some (Json out) ->
  UpdateRules.rewrite out = Ok out ->
  UpdateRules.add_fap_rules p w = (Ok tt, w).
Proof.
  intros Hp Hrw. rewrite add_fap_rules_run, Hp, Hrw.
  by rewrite insert_id, world_eta.
Qed.

Lemma capabilities_paths_differ :
  UpdateCapabilities.capabilities_json
  <> UpdateCapabilities.blue_label_capabilities_json.
Proof. discriminate. Qed.

(** The capability script, by cases on what the two files hold. *)
Lemma capabilities_main_run w :
  let p1 := UpdateCapabilities.capabilities_json in
  let p2 := UpdateCapabilities.blue_label_capabilities_json in
  let msg :=
    "Capabilities updated successfully with separate boolean tiers." in
  UpdateCapabilities.main w =
  match files w !! p1 with
  | None => (Raise (FileNotFoundError p1), w)
  | Some (Malformed _) => (Raise JSONDecodeError, w)
  | Some (Json d1) =>
      match UpdateCapabilities.rewrite d1 with
      | Raise e => (Raise e, w)
      | Ok o1 =>
          let w1 := World (<[p1 := Json o1]> (files w)) (stdout w) in
          match files w !! p2 with
          | None => (Raise (FileNotFoundError p2), w1)
          | Some (Malformed _) => (Raise JSONDecodeError, w1)
          | Some (Json d2) =>
              match UpdateCapabilities.rewrite d2 with
              | Raise e => (Raise e, w1)
              | Ok o2 =>
                  (Ok tt,
                   World (<[p2 := Json o2]> (<[p1 := Json o1]> (files w)))
                     (stdout w ++ [msg]))
              end
          end
      end
  end.
Proof.
  intros p1 p2 msg. unfold UpdateCapabilities.main, bind, print.
  fold p1 p2. rewrite (update_capabilities_run p1 w).
  destruct (files w !! p1) as [[t|d1]|]; try done.
  destruct (UpdateCapabilities.rewrite d1) as [o1|e]; [|done].
  rewrite (update_capabilities_run p2). cbn [files stdout].
  rewrite lookup_insert_ne by apply capabilities_paths_differ.
  destruct (files w !! p2) as [[t|d2]|]; try done.
  by destruct (UpdateCapabilities.rewrite d2).
Qed.



(** X12. The capability script is not atomic over its two files: when
    the first file is rewritten and the run on the second aborts, the
    script ends with that exception, the first file stays rewritten, the
    second is as it was, and no confirmation is printed. *)
Theorem capabilities_script_stops_at_second (w : world) (d1 o1 : value)
  (e : exn) :
  doc_at UpdateCapabilities.capabilities_json w = Some d1 ->
  UpdateCapabilities.rewrite d1 = Ok o1 ->
  aborts UpdateCapabilities.update_capabilities
    UpdateCapabilities.blue_label_capabilities_json w e ->
  UpdateCapabilities.main w
  = (Raise e,
     World (<[UpdateCapabilities.capabilities_json := Json o1]> (files w))
       (stdout w)).
Proof.
  unfold doc_at, aborts. intros H1 Hr1.
  rewrite capabilities_main_run, update_capabilities_run. cbv zeta.
  destruct (files w !! UpdateCapabilities.capabilities_json)
    as [[t|d1']|]; try done.
  injection H1 as ->. rewrite Hr1.
  destruct (files w !! UpdateCapabilities.blue_label_capabilities_json)
    as [[t|d2]|]; try (by intros [= <-]).
  destruct (UpdateCapabilities.rewrite d2); [done|by intros [= <-]].
Qed.

Lemma capabilities_script_stops_at_second_witness :
  UpdateCapabilities.main (site only_warranty no_option_id rulebook)
  = (Raise (KeyError "option_id"),
     World (<[UpdateCapabilities.capabilities_json
              := Json (VDict [("capabilities", VList [])])]>
              (files (site only_warranty no_option_id rulebook)))
       (stdout (site only_warranty no_option_id rulebook))).
Proof.
  refine (capabilities_script_stops_at_second
            (site only_warranty no_option_id rulebook) only_warranty _ _ _ _ _);
    vm_compute; reflexivity.
Defined.



End Scripts.

Section Composition.
Import Acceptance Outcome Samples MoreSamples.

(** X14. The two injectors do not interfere: on different files, the
    capability injector and the rule injector give the same results and
    leave the same world in either order. *)
Theorem injectors_commute (p q : string) (w : world) :
  p <> q ->
  (UpdateRules.add_fap_rules q
     (UpdateCapabilities.update_capabilities p w).2).2
  = (UpdateCapabilities.update_capabilities p
       (UpdateRules.add_fap_rules q w).2).2 /\
  (UpdateCapabilities.update_capabilities p
     (UpdateRules.add_fap_rules q w).2).1
  = (UpdateCapabilities.update_capabilities p w).1 /\
  (UpdateRules.add_fap_rules q
     (UpdateCapabilities.update_capabilities p w).2).1
  = (UpdateRules.add_fap_rules q w).1.
Proof.
  intros Hne.
  rewrite (add_fap_rules_run q w), (update_capabilities_run p w).
  destruct (files w !! p) as [[t|d1]|] eqn:Hp;
    destruct (files w !! q) as [[t'|d2]|] eqn:Hq;
    try destruct (UpdateCapabilities.rewrite d1) as [o1|e1] eqn:Hr1;
    try destruct (UpdateRules.rewrite d2) as [o2|e2] eqn:Hr2;
    cbn [fst snd];
    rewrite ?add_fap_rules_run, ?update_capabilities_run; cbn [files stdout];
    rewrite ?lookup_insert_ne by done;
    rewrite ?Hp, ?Hq, ?Hr1, ?Hr2; cbn [fst snd]; try done.
  split; [|done]. f_equal. by apply insert_insert_ne.
Qed.

Lemma injectors_commute_witness :
  (UpdateRules.add_fap_rules UpdateRules.rules_json
     (UpdateCapabilities.update_capabilities
        UpdateCapabilities.capabilities_json
        (site catalogue catalogue rulebook)).2).2
  = (UpdateCapabilities.update_capabilities
       UpdateCapabilities.capabilities_json
       (UpdateRules.add_fap_rules UpdateRules.rules_json
          (site catalogue catalogue rulebook)).2).2 /\
  (UpdateCapabilities.update_capabilities
     UpdateCapabilities.capabilities_json
     (UpdateRules.add_fap_rules UpdateRules.rules_json
        (site catalogue catalogue rulebook)).2).1
  = (UpdateCapabilities.update_capabilities
       UpdateCapabilities.capabilities_json
       (site catalogue catalogue rulebook)).1 /\
  (UpdateRules.add_fap_rules UpdateRules.rules_json
     (UpdateCapabilities.update_capabilities
        UpdateCapabilities.capabilities_json
        (site catalogue catalogue rulebook)).2).1
  = (UpdateRules.add_fap_rules UpdateRules.rules_json
       (site catalogue catalogue rulebook)).1.
Proof.
  refine (injectors_commute UpdateCapabilities.capabilities_json
            UpdateRules.rules_json (site catalogue catalogue rulebook) _).
  discriminate.
Defined.



End Composition.

(** ** The two injectors together *)

Section RulesMeetCapabilities.
Import Acceptance Samples MoreSamples.
Import CapabilityFacts.




End RulesMeetCapabilities.
